(** * Verification of the SaaS backend endpoint layer ([main.py])

    The HTTP handlers of [main.py] are embedded as functions in a small
    state-and-exception monad over an abstract persistence layer (the
    [database] module: [db], [create_document], [get_documents]).  The
    first part of the file holds the definitions, the second part the
    properties of the handlers.

    A Python [str] is represented by a [string] holding its UTF-8 text,
    a [dict] with string keys by a [gmap string _], a Python [int] by [Z]. *)

From Stdlib Require Import ZArith List String Ascii Lia Bool.
From stdpp Require Import base gmap strings list pretty.

(** * [hashlib.sha256]: SHA-256 on byte lists, words as [Z] reduced modulo [2^32] *)

Module Sha256.
Local Open Scope Z_scope.

Definition add32 (x y : Z) : Z := (x + y) mod 2 ^ 32.
Definition not32 (x : Z) : Z := Z.lxor x 0xffffffff.
Definition shr (n x : Z) : Z := Z.shiftr x n.
Definition rotr (n x : Z) : Z :=
  Z.lor (Z.shiftr x n) (Z.shiftl x (32 - n) mod 2 ^ 32).

Definition Ch (x y z : Z) : Z := Z.lxor (Z.land x y) (Z.land (not32 x) z).
Definition Maj (x y z : Z) : Z :=
  Z.lxor (Z.lxor (Z.land x y) (Z.land x z)) (Z.land y z).
Definition bsig0 (x : Z) : Z := Z.lxor (Z.lxor (rotr 2 x) (rotr 13 x)) (rotr 22 x).
Definition bsig1 (x : Z) : Z := Z.lxor (Z.lxor (rotr 6 x) (rotr 11 x)) (rotr 25 x).
Definition ssig0 (x : Z) : Z := Z.lxor (Z.lxor (rotr 7 x) (rotr 18 x)) (shr 3 x).
Definition ssig1 (x : Z) : Z := Z.lxor (Z.lxor (rotr 17 x) (rotr 19 x)) (shr 10 x).

(** The round constants and the initial hash value are derived from the
    primes, as the standard defines them: the first 32 bits of the
    fractional parts of the cube roots of the first 64 primes, and of the
    square roots of the first 8. *)
Definition is_prime (n : Z) : bool :=
  (1 <? n) && forallb (fun d => negb (n mod Z.of_nat d =? 0))
                      (seq 2 (Z.to_nat n - 2)).

Definition primes : list Z :=
  List.filter is_prime (List.map Z.of_nat (seq 2 310)).

(** The integer cube root of [n < 2^108], one bit at a time. *)
Definition cube_root (n : Z) : Z :=
  fold_left (fun r b => let r' := r + 2 ^ Z.of_nat b in
                        if r' * r' * r' <=? n then r' else r)
            (rev (seq 0 36)) 0.

Definition K : list Z :=
  List.map (fun p => cube_root (p * 2 ^ 96) mod 2 ^ 32) primes.

(** The eight working words [a .. h]. *)
Record regs := Regs { ra : Z; rb : Z; rc : Z; rd : Z; re : Z; rf : Z; rg : Z; rh : Z }.

Definition root_bits (p : Z) : Z := Z.sqrt (p * 2 ^ 64) mod 2 ^ 32.

Definition H0 : regs :=
  Regs (root_bits 2) (root_bits 3) (root_bits 5) (root_bits 7)
       (root_bits 11) (root_bits 13) (root_bits 17) (root_bits 19).

(** Big-endian bytes of the low [8 * n] bits of [x]. *)
Fixpoint be_bytes (n : nat) (x : Z) : list Z :=
  match n with
  | O => []
  | S n' => (Z.shiftr x (8 * Z.of_nat n')) mod 256 :: be_bytes n' x
  end.

Definition be_word (bs : list Z) : Z :=
  fold_left (fun acc b => acc * 256 + b) bs 0.

(** Message padding: a 1 bit, zeros up to 56 mod 64, the bit length on 64 bits. *)
Definition pad (msg : list Z) : list Z :=
  let len := Z.of_nat (length msg) in
  msg ++ [0x80] ++ repeat 0 (Z.to_nat ((55 - len) mod 64))
      ++ be_bytes 8 ((8 * len) mod 2 ^ 64).

Fixpoint chunks {A} (fuel n : nat) (l : list A) : list (list A) :=
  match fuel with
  | O => []
  | S fuel' =>
      match l with
      | [] => []
      | _ => firstn n l :: chunks fuel' n (skipn n l)
      end
  end.

Definition block_words (block : list Z) : list Z :=
  List.map be_word (chunks 16 4 block).

(** Message schedule: 16 words of the block, then 48 derived words. *)
Fixpoint extend (n : nat) (ws : list Z) : list Z :=
  match n with
  | O => ws
  | S n' =>
      let t := length ws in
      let at_ (i : nat) := nth (t - i) ws 0 in
      extend n' (ws ++ [add32 (add32 (add32 (ssig1 (at_ 2%nat)) (at_ 7%nat))
                                      (ssig0 (at_ 15%nat))) (at_ 16%nat)])
  end.

Definition schedule (block : list Z) : list Z := extend 48 (block_words block).

Definition round (r : regs) (kw : Z * Z) : regs :=
  let '(k, w) := kw in
  let t1 := add32 (add32 (add32 (add32 (rh r) (bsig1 (re r))) (Ch (re r) (rf r) (rg r))) k) w in
  let t2 := add32 (bsig0 (ra r)) (Maj (ra r) (rb r) (rc r)) in
  Regs (add32 t1 t2) (ra r) (rb r) (rc r) (add32 (rd r) t1) (re r) (rf r) (rg r).

Definition compress (h : regs) (block : list Z) : regs :=
  let r := fold_left round (combine K (schedule block)) h in
  Regs (add32 (ra h) (ra r)) (add32 (rb h) (rb r)) (add32 (rc h) (rc r))
       (add32 (rd h) (rd r)) (add32 (re h) (re r)) (add32 (rf h) (rf r))
       (add32 (rg h) (rg r)) (add32 (rh h) (rh r)).

Definition digest_regs (msg : list Z) : regs :=
  let p := pad msg in
  fold_left compress (chunks (length p) 64 p) H0.

Definition hex_digit (d : Z) : ascii :=
  if d <? 10 then ascii_of_N (Z.to_N (48 + d)) else ascii_of_N (Z.to_N (87 + d)).

Definition nibble (x : Z) (i : Z) : Z := (Z.shiftr x (4 * i)) mod 16.

Definition hex8 (x : Z) : list ascii :=
  List.map (fun i => hex_digit (nibble x i)) [7; 6; 5; 4; 3; 2; 1; 0].

Definition hex_regs (r : regs) : list ascii :=
  hex8 (ra r) ++ hex8 (rb r) ++ hex8 (rc r) ++ hex8 (rd r)
    ++ hex8 (re r) ++ hex8 (rf r) ++ hex8 (rg r) ++ hex8 (rh r).

(** [hashlib.sha256(data).hexdigest()] *)
Definition hexdigest (data : list Z) : string :=
  string_of_list_ascii (hex_regs (digest_regs data)).

End Sha256.

Local Open Scope string_scope.
Local Open Scope list_scope.

(** * Python strings *)

(** [s.encode()]: the UTF-8 bytes of [s]. *)
Definition encode (s : string) : list Z :=
  List.map (fun c => Z.of_N (N_of_ascii c)) (list_ascii_of_string s).

(** [sha256(s.encode()).hexdigest()] *)
Definition sha256_hex (s : string) : string := Sha256.hexdigest (encode s).

(** The characters [0-9a-f]. *)
Definition is_hex_digit (c : ascii) : Prop :=
  In c (list_ascii_of_string "0123456789abcdef").

(** A UTF-8 continuation byte [10xxxxxx] belongs to the character begun before it. *)
Definition is_continuation (c : ascii) : bool :=
  N.eqb (N.land (N_of_ascii c) 192) 128.

(** [s[:n]]: the first [n] characters of [s]. *)
Fixpoint str_prefix (n : nat) (s : string) : string :=
  match s with
  | EmptyString => EmptyString
  | String c s' =>
      if is_continuation c then String c (str_prefix n s')
      else match n with
           | O => EmptyString
           | S n' => String c (str_prefix n' s')
           end
  end.

(** * Values, documents, exceptions *)

(** Values held in documents and JSON responses. *)
Inductive value :=
| VNone
| VBool (b : bool)
| VStr (s : string)
| VList (l : list string)
| VObjectId (oid : string).

#[global] Instance value_eq_dec : EqDecision value.
Proof. solve_decision. Defined.

(** A document, and any [dict] with string keys. *)
Abbreviation doc := (gmap string value).

Section Str.
(** [repr] of a list of strings, left to the Python runtime. *)
Variable repr_list : list string -> string.

(** The builtin [str(v)]. *)
Definition str (v : value) : string :=
  match v with
  | VNone => "None"
  | VBool true => "True"
  | VBool false => "False"
  | VStr s => s
  | VList l => repr_list l
  | VObjectId oid => oid
  end.

(** One turn of the loop of [list_blogs]:
    [if "_id" in p: p["id"] = str(p.pop("_id"))]. *)
Definition rename_id (p : doc) : doc :=
  match p !! "_id" with
  | Some v => <["id" := VStr (str v)]> (delete "_id" p)
  | None => p
  end.
End Str.

Inductive exn :=
| HTTPException (status_code : Z) (detail : string)
| Exception (msg : string).

(** [str(e)]; an [HTTPException] prints as its status and detail. *)
Definition exn_str (e : exn) : string :=
  match e with
  | HTTPException status_code detail => pretty status_code +:+ ": " +:+ detail
  | Exception msg => msg
  end.

(** What a call leaves: a returned value or a raised exception. *)
Inductive outcome (A : Type) :=
| Return (a : A)
| Raise (e : exn).
Arguments Return {A} a.
Arguments Raise {A} e.

(** * The persistence layer and the handler monad *)

(** What a persistence helper leaves: its value, or the text [str(e)] of the
    exception it raised.  The helpers know nothing of HTTP: what they raise
    is never an [HTTPException]. *)
Inductive result (A : Type) :=
| Ok (a : A)
| Err (msg : string).
Arguments Ok {A} a.
Arguments Err {A} msg.

(** The names [main.py] imports from [database], over a database state [DB]:
    the handle [db] (which may be [None], may lack a [name] attribute, and
    whose attribute access and [list_collection_names()] may raise) and the
    two helpers.  Every operation may change the state. *)
Class Database (DB : Type) := {
  db_is_none : DB -> bool;
  db_name : DB -> result (option string);
  list_collection_names : DB -> result (list string) * DB;
  create_document : string -> doc -> DB -> result string * DB;
  get_documents : string -> doc -> Z -> DB -> result (list doc) * DB
}.

(** The calls a request makes to the persistence layer, in order. *)
Inductive call :=
| CreateDocument (collection_name : string) (data : doc)
| GetDocuments (collection_name : string) (filter_dict : doc) (limit : Z)
| ListCollectionNames.

(** The process state a handler runs in: the database, [os.environ], and
    the persistence calls made so far. *)
Record world (DB : Type) := World {
  w_db : DB;
  w_environ : gmap string string;
  w_calls : list call
}.
Arguments World {DB} w_db w_environ w_calls.
Arguments w_db {DB} w.
Arguments w_environ {DB} w.
Arguments w_calls {DB} w.

(** Computations over a state [S] that return or raise. *)
Definition M (S A : Type) : Type := S -> outcome A * S.

Definition ret {S A} (a : A) : M S A := fun s => (Return a, s).

Definition raise {S A} (e : exn) : M S A := fun s => (Raise e, s).

Definition bind {S A B} (m : M S A) (k : A -> M S B) : M S B :=
  fun s =>
    match m s with
    | (Return a, s') => k a s'
    | (Raise e, s') => (Raise e, s')
    end.

(** [try: body  except Exception as e: handler(e)] *)
Definition try_except {S A} (body : M S A) (handler : exn -> M S A) : M S A :=
  fun s =>
    match body s with
    | (Return a, s') => (Return a, s')
    | (Raise e, s') => handler e s'
    end.

Notation "'let*' x ':=' m 'in' k" := (bind m (fun x => k))
  (at level 10, x binder, m at level 200, k at level 200).

Definition of_result {A} (r : result A) : outcome A :=
  match r with
  | Ok a => Return a
  | Err msg => Raise (Exception msg)
  end.

Section Calls.
Context {DB : Type} `{Database DB}.

Definition logged (c : call) (w : world DB) (db' : DB) : world DB :=
  World db' (w_environ w) (w_calls w ++ [c]).

Definition call_create_document (collection_name : string) (data : doc)
  : M (world DB) string :=
  fun w =>
    let '(r, db') := create_document collection_name data (w_db w) in
    (of_result r, logged (CreateDocument collection_name data) w db').

Definition call_get_documents (collection_name : string) (filter_dict : doc)
    (limit : Z) : M (world DB) (list doc) :=
  fun w =>
    let '(r, db') := get_documents collection_name filter_dict limit (w_db w) in
    (of_result r, logged (GetDocuments collection_name filter_dict limit) w db').

Definition call_list_collection_names : M (world DB) (list string) :=
  fun w =>
    let '(r, db') := list_collection_names (w_db w) in
    (of_result r, logged ListCollectionNames w db').

(** [db is not None] *)
Definition db_is_not_none : M (world DB) bool :=
  fun w => (Return (negb (db_is_none (w_db w))), w).

(** [db.name if hasattr(db, 'name') else dflt] *)
Definition db_name_or (dflt : string) : M (world DB) string :=
  fun w =>
    (match db_name (w_db w) with
     | Ok name => Return (default dflt name)
     | Err msg => Raise (Exception msg)
     end, w).

(** [os.getenv(name)] *)
Definition getenv (name : string) : M (world DB) (option string) :=
  fun w => (Return (w_environ w !! name), w).
End Calls.

(** Truth value of an optional string: [None] and the empty string are false. *)
Definition truthy (o : option string) : bool :=
  match o with
  | Some (String _ _) => true
  | _ => false
  end.


(** * Schemas and payloads *)

(** Modelled from the spec: [schemas.py] ([User], [BlogPost],
    [ContactMessage]) is not among the sources; the fields are those of the
    spec's data model, and the record handed to [create_document] is stored
    as its [model_dump()]. *)
Record User := { user_name : string; user_email : string; password_hash : string }.

Record BlogPost := {
  post_title : string;
  post_slug : string;
  post_content : string;
  post_excerpt : option string;
  post_author : string;
  post_tags : list string;
  post_published : bool
}.

Record ContactMessage := { msg_name : string; msg_email : string; msg_message : string }.

Definition of_optional (o : option string) : value :=
  match o with
  | Some s => VStr s
  | None => VNone
  end.

Definition User_model_dump (u : User) : doc :=
  {[ "name" := VStr (user_name u);
     "email" := VStr (user_email u);
     "password_hash" := VStr (password_hash u) ]}.

Definition BlogPost_model_dump (p : BlogPost) : doc :=
  {[ "title" := VStr (post_title p);
     "slug" := VStr (post_slug p);
     "content" := VStr (post_content p);
     "excerpt" := of_optional (post_excerpt p);
     "author" := VStr (post_author p);
     "tags" := VList (post_tags p);
     "published" := VBool (post_published p) ]}.

Definition ContactMessage_model_dump (m : ContactMessage) : doc :=
  {[ "name" := VStr (msg_name m);
     "email" := VStr (msg_email m);
     "message" := VStr (msg_message m) ]}.

Record Plan := {
  plan_id : string;
  plan_name : string;
  price : string;
  features : list string;
  highlighted : bool
}.

Record SignupPayload := {
  signup_name : string;
  signup_email : string;
  signup_password : string
}.

Record LoginPayload := { login_email : string; login_password : string }.

Record BlogCreatePayload := {
  title : string;
  slug : string;
  content : string;
  excerpt : option string;
  author : string;
  tags : list string;
  published : bool
}.

(** A [BlogCreatePayload] whose optional fields are left at their defaults:
    [excerpt = None], [tags = []], [published = True]. *)
Definition BlogCreatePayload_defaults (title slug content author : string)
  : BlogCreatePayload :=
  {| title := title; slug := slug; content := content; excerpt := None;
     author := author; tags := []; published := true |}.

(** The [BlogPost] built from the dumped fields of the payload. *)
Definition BlogPost_of_payload (payload : BlogCreatePayload) : BlogPost :=
  {| post_title := title payload;
     post_slug := slug payload;
     post_content := content payload;
     post_excerpt := excerpt payload;
     post_author := author payload;
     post_tags := tags payload;
     post_published := published payload |}.

Record ContactPayload := {
  contact_name : string;
  contact_email : string;
  contact_message : string
}.

(** * The handlers of [main.py] *)

Section Handlers.
Context {DB : Type} `{Database DB}.
Variable repr_list : list string -> string.

Definition read_root : M (world DB) doc :=
  ret {[ "message" := VStr "SaaS Backend Running" ]}.

Definition get_plans : M (world DB) (list Plan) :=
  ret [ {| plan_id := "free"; plan_name := "Starter"; price := "$0";
           features := ["Up to 3 projects"; "Basic analytics"; "Community support"];
           highlighted := false |};
        {| plan_id := "pro"; plan_name := "Pro"; price := "$19";
           features := ["Unlimited projects"; "Advanced analytics"; "Priority support"];
           highlighted := true |};
        {| plan_id := "team"; plan_name := "Team"; price := "$49";
           features := ["Team workspaces"; "SSO (SAML)"; "Admin controls"];
           highlighted := false |} ].

(** [except Exception as e: raise HTTPException(status_code=500, detail=str(e))] *)
Definition server_error {A} (e : exn) : M (world DB) A :=
  raise (HTTPException 500 (exn_str e)).

Definition signup (payload : SignupPayload) : M (world DB) doc :=
  let user := {| user_name := signup_name payload;
                 user_email := signup_email payload;
                 password_hash := sha256_hex (signup_password payload) |} in
  try_except
    (let* user_id := call_create_document "user" (User_model_dump user) in
     ret {[ "ok" := VBool true; "id" := VStr user_id ]})
    server_error.

Definition login (payload : LoginPayload) : M (world DB) doc :=
  try_except
    (let* docs := call_get_documents "user"
                    {[ "email" := VStr (login_email payload) ]} 1 in
     match docs with
     | [] => raise (HTTPException 401 "Invalid credentials")
     | _ :: _ => ret {[ "ok" := VBool true; "message" := VStr "Logged in" ]}
     end)
    (fun e =>
       match e with
       | HTTPException _ _ => raise e
       | Exception _ => server_error e
       end).

Definition create_blog (payload : BlogCreatePayload) : M (world DB) doc :=
  let post := BlogPost_of_payload payload in
  try_except
    (let* post_id := call_create_document "blogpost" (BlogPost_model_dump post) in
     ret {[ "ok" := VBool true; "id" := VStr post_id ]})
    server_error.

Definition list_blogs (limit : Z) : M (world DB) (list doc) :=
  try_except
    (let* posts := call_get_documents "blogpost"
                     {[ "published" := VBool true ]} limit in
     ret (rename_id repr_list <$> posts))
    server_error.

Definition submit_contact (payload : ContactPayload) : M (world DB) doc :=
  let msg := {| msg_name := contact_name payload;
                msg_email := contact_email payload;
                msg_message := contact_message payload |} in
  try_except
    (let* msg_id := call_create_document "contactmessage"
                      (ContactMessage_model_dump msg) in
     ret {[ "ok" := VBool true; "id" := VStr msg_id ]})
    server_error.
End Handlers.

(** ** The diagnostic handler

    [test_database] builds its answer in the local dict [response], which
    it updates in place: the state of its body is [response] together with
    the world, so an [except] branch sees the assignments made before the
    exception. *)

Section Diagnostic.
Context {DB : Type} `{Database DB}.

(** A world computation run inside the body. *)
Definition lift {A} (m : M (world DB) A) : M (doc * world DB) A :=
  fun s =>
    let '(response, w) := s in
    let '(r, w') := m w in
    (r, (response, w')).

(** [response[key] = v] *)
Definition assign (key : string) (v : value) : M (doc * world DB) unit :=
  fun s =>
    let '(response, w) := s in
    (Return tt, (<[key := v]> response, w)).

(** Run [body] with [response] bound to [init]; the value is the final [response]. *)
Definition with_response (init : doc) (body : M (doc * world DB) unit)
  : M (world DB) doc :=
  fun w =>
    match body (init, w) with
    | (Return _, (response, w')) => (Return response, w')
    | (Raise e, (_, w')) => (Raise e, w')
    end.

Definition test_database : M (world DB) doc :=
  with_response
    {[ "backend" := VStr "✅ Running";
       "database" := VStr "❌ Not Available";
       "database_url" := VNone;
       "database_name" := VNone;
       "connection_status" := VStr "Not Connected";
       "collections" := VList [] ]}
    (let* _ :=
       try_except
         (let* available := lift db_is_not_none in
          if available : bool then
            let* _ := assign "database" (VStr "✅ Available") in
            let* _ := assign "database_url" (VStr "✅ Configured") in
            let* name := lift (db_name_or "✅ Connected") in
            let* _ := assign "database_name" (VStr name) in
            let* _ := assign "connection_status" (VStr "Connected") in
            try_except
              (let* collections := lift call_list_collection_names in
               let* _ := assign "collections" (VList (take 10 collections)) in
               assign "database" (VStr "✅ Connected & Working"))
              (fun e =>
                 assign "database"
                   (VStr ("⚠️  Connected but Error: " +:+ str_prefix 50 (exn_str e))))
          else
            assign "database" (VStr "⚠️  Available but not initialized"))
         (fun e =>
            assign "database" (VStr ("❌ Error: " +:+ str_prefix 50 (exn_str e)))) in
     let* url := lift (getenv "DATABASE_URL") in
     let* _ := assign "database_url"
                 (VStr (if truthy url then "✅ Set" else "❌ Not Set")) in
     let* name := lift (getenv "DATABASE_NAME") in
     assign "database_name"
       (VStr (if truthy name then "✅ Set" else "❌ Not Set"))).
End Diagnostic.

(** * Routes, request validation and HTTP responses *)

(** A request that passed validation, as the route table of [main.py]
    dispatches it; [GET_blog None] is a listing without [limit]. *)
Inductive request :=
| GET_root
| GET_plans
| POST_signup (payload : SignupPayload)
| POST_login (payload : LoginPayload)
| POST_blog (payload : BlogCreatePayload)
| GET_blog (limit : option Z)
| POST_contact (payload : ContactPayload)
| GET_test.

(** What a handler returns: a dict, a list of dicts, or the list of plans. *)
Inductive reply :=
| Dict (d : doc)
| Dicts (l : list doc)
| Plans (l : list Plan).

Section Routes.
Context {DB : Type} `{Database DB}.
Variable repr_list : list string -> string.

(** [GET /api/blog?limit=N], with [def list_blogs(limit: int = 10)]. *)
Definition get_blog (limit : option Z) : M (world DB) (list doc) :=
  list_blogs repr_list (default 10%Z limit).

Definition route (req : request) : M (world DB) reply :=
  match req with
  | GET_root => let* d := read_root in ret (Dict d)
  | GET_plans => let* l := get_plans in ret (Plans l)
  | POST_signup payload => let* d := signup payload in ret (Dict d)
  | POST_login payload => let* d := login payload in ret (Dict d)
  | POST_blog payload => let* d := create_blog payload in ret (Dict d)
  | GET_blog limit => let* l := get_blog limit in ret (Dicts l)
  | POST_contact payload => let* d := submit_contact payload in ret (Dict d)
  | GET_test => let* d := test_database in ret (Dict d)
  end.
End Routes.

(** A parsed JSON request body. *)
#[warnings="-register-all"]
Inductive json :=
| JNull
| JBool (b : bool)
| JNumber (z : Z)
| JString (s : string)
| JArray (l : list json)
| JObject (o : gmap string json).

(** A required field annotated [str]: present, and a JSON string. *)
Definition required_str (o : gmap string json) (key : string) : option string :=
  match o !! key with
  | Some (JString s) => Some s
  | _ => None
  end.

(** Validation of a body against [ContactPayload]
    ([name: str], [email: str], [message: str], all required). *)
Definition ContactPayload_validate (body : json) : option ContactPayload :=
  match body with
  | JObject o =>
      name ← required_str o "name";
      email ← required_str o "email";
      message ← required_str o "message";
      Some {| contact_name := name; contact_email := email;
              contact_message := message |}
  | _ => None
  end.

(** What the client receives. *)
Inductive http_response (A : Type) :=
| Success (body : A)
| HttpError (status : Z) (detail : string)
| Unprocessable.
Arguments Success {A} body.
Arguments HttpError {A} status detail.
Arguments Unprocessable {A}.

Definition status {A} (r : http_response A) : Z :=
  match r with
  | Success _ => 200
  | HttpError status _ => status
  | Unprocessable => 422
  end.

(** An [HTTPException] becomes a response with its status; any other
    exception that leaves a handler is an internal server error. *)
Definition respond {A} (r : outcome A) : http_response A :=
  match r with
  | Return a => Success a
  | Raise (HTTPException status_code detail) => HttpError status_code detail
  | Raise (Exception _) => HttpError 500 "Internal Server Error"
  end.

Section Endpoints.
Context {DB : Type} `{Database DB}.

(** [POST /api/contact]: the body is validated against [ContactPayload]
    before [submit_contact] is entered. *)
Definition post_contact (body : json) (w : world DB)
  : http_response doc * world DB :=
  match ContactPayload_validate body with
  | None => (Unprocessable, w)
  | Some payload =>
      let '(r, w') := submit_contact payload w in
      (respond r, w')
  end.
End Endpoints.

(** * An in-memory document store *)

Module MemDb.

(** Modelled from the spec: the [database] module ([db],
    [create_document], [get_documents]) is not among the sources.  A
    database holds named collections of documents in insertion order;
    [create_document(collection, record) -> id] adds the record under a
    system-generated key [_id] and returns that identifier;
    [get_documents(collection, filter, limit) -> list of records] returns
    the records whose fields equal those of the filter, up to [limit] of
    them.  Without a database handle both helpers raise. *)
Record store := Store {
  name : string;
  collections : gmap string (list doc);
  next_id : N
}.

(** The handle [db]: [None] when no database is configured. *)
Abbreviation handle := (option store).

Definition collection (collection_name : string) (st : store) : list doc :=
  default [] (collections st !! collection_name).

(** The documents of a collection as seen through the handle. *)
Definition documents (collection_name : string) (db : handle) : list doc :=
  match db with
  | Some st => collection collection_name st
  | None => []
  end.

Definition hex_digits (n : nat) (x : N) : string :=
  string_of_list_ascii
    (List.map (fun i => Sha256.hex_digit (Sha256.nibble (Z.of_N x) (Z.of_nat i)))
              (rev (seq 0 n))).

(** The generated key: 24 hexadecimal digits, as an ObjectId prints. *)
Definition generate_id (st : store) : string := hex_digits 24 (next_id st).

Definition unavailable : string := "Database not available".

(** [d] has every field of [filter_dict], with an equal value. *)
Definition matches (filter_dict d : doc) : bool :=
  bool_decide (map_Forall (fun k v => d !! k = Some v) filter_dict).

Definition mem_create_document (collection_name : string) (data : doc)
    (db : handle) : result string * handle :=
  match db with
  | None => (Err unavailable, None)
  | Some st =>
      let oid := generate_id st in
      let d := <["_id" := VObjectId oid]> data in
      (Ok oid,
       Some {| name := name st;
               collections := <[collection_name := collection collection_name st ++ [d]]>
                                (collections st);
               next_id := N.succ (next_id st) |})
  end.

Definition mem_get_documents (collection_name : string) (filter_dict : doc)
    (limit : Z) (db : handle) : result (list doc) * handle :=
  match db with
  | None => (Err unavailable, None)
  | Some st =>
      (Ok (take (Z.to_nat limit)
             (List.filter (matches filter_dict) (collection collection_name st))),
       db)
  end.

Definition mem_list_collection_names (db : handle)
  : result (list string) * handle :=
  match db with
  | None => (Err unavailable, None)
  | Some st => (Ok (map_to_list (collections st)).*1, db)
  end.

#[global] Instance mem_database : Database handle := {|
  db_is_none db := match db with None => true | Some _ => false end;
  db_name db := Ok (name <$> db);
  list_collection_names := mem_list_collection_names;
  create_document := mem_create_document;
  get_documents := mem_get_documents
|}.

(** The runtime's [repr] of a list of strings is not modelled; the store
    never holds a list under [_id], so this stand-in is never printed. *)
Definition repr_list (l : list string) : string :=
  "[" +:+ String.concat ", " l +:+ "]".

End MemDb.

(** * A persistence layer that is down *)

Module DownDb.

(** A database handle that exists and has a name, behind which every
    operation raises [msg]. *)
Definition down (msg : string) : Database unit := {|
  db_is_none _ := false;
  db_name _ := Ok (Some "saas");
  list_collection_names db := (Err msg, db);
  create_document _ _ db := (Err msg, db);
  get_documents _ _ _ db := (Err msg, db)
|}.

End DownDb.

(** * Counting the writes *)

(** The number of [create_document] calls among [calls]. *)
Definition creations (calls : list call) : nat :=
  length (List.filter (fun c => match c with CreateDocument _ _ => true | _ => false end)
                      calls).

(** The routes whose handler calls [create_document]. *)
Definition creating (req : request) : bool :=
  match req with
  | POST_signup _ | POST_blog _ | POST_contact _ => true
  | _ => false
  end.

(** * The authentication endpoints and their payloads *)

(** [len(s)]: the number of characters of [s], the bytes that begin one. *)
Fixpoint str_len (s : string) : nat :=
  match s with
  | EmptyString => O
  | String c s' => (if is_continuation c then O else 1%nat) + str_len s'
  end.

(** Validation of a body against [SignupPayload]
    ([name: str], [email: str], [password: str], all required). *)
Definition SignupPayload_validate (body : json) : option SignupPayload :=
  match body with
  | JObject o =>
      name ← required_str o "name";
      email ← required_str o "email";
      password ← required_str o "password";
      Some {| signup_name := name; signup_email := email;
              signup_password := password |}
  | _ => None
  end.

(** Validation of a body against [LoginPayload]
    ([email: str], [password: str], both required). *)
Definition LoginPayload_validate (body : json) : option LoginPayload :=
  match body with
  | JObject o =>
      email ← required_str o "email";
      password ← required_str o "password";
      Some {| login_email := email; login_password := password |}
  | _ => None
  end.

Section AuthEndpoints.
Context {DB : Type} `{Database DB}.

(** [POST /api/auth/signup] *)
Definition post_signup (body : json) (w : world DB)
  : http_response doc * world DB :=
  match SignupPayload_validate body with
  | None => (Unprocessable, w)
  | Some payload =>
      let '(r, w') := signup payload w in
      (respond r, w')
  end.

(** [POST /api/auth/login] *)
Definition post_login (body : json) (w : world DB)
  : http_response doc * world DB :=
  match LoginPayload_validate body with
  | None => (Unprocessable, w)
  | Some payload =>
      let '(r, w') := login payload w in
      (respond r, w')
  end.
End AuthEndpoints.

(** * A persistence layer that ignores filters and limits *)

Module LooseDb.

(** A database that is one list of records: every query is answered with
    all of them, whatever the collection, the filter and the limit. *)
Definition loose : Database (list doc) := {|
  db_is_none _ := false;
  db_name _ := Ok None;
  list_collection_names db := (Ok [], db);
  create_document _ data db := (Ok "0", db ++ [data]);
  get_documents _ _ _ db := (Ok db, db)
|}.

End LooseDb.

(** * Properties *)

(** ** The digest *)

(** The derived constants are those of the standard. *)
Example sha256_constants :
  length Sha256.K = 64%nat
  /\ hd 0%Z Sha256.K = 0x428a2f98%Z
  /\ last Sha256.K = Some 0xc67178f2%Z
  /\ Sha256.ra Sha256.H0 = 0x6a09e667%Z
  /\ Sha256.rh Sha256.H0 = 0x5be0cd19%Z.
Proof. vm_compute. repeat split. Qed.

Example sha256_hex_abc :
  sha256_hex "abc"
  = "ba7816bf8f01cfea414140de5dae2223b00361a396177a9cb410ff61f20015ad".
Proof. vm_compute. reflexivity. Qed.

Example sha256_hex_empty :
  sha256_hex ""
  = "e3b0c44298fc1c149afbf4c8996fb92427ae41e4649b934ca495991b7852b855".
Proof. vm_compute. reflexivity. Qed.

(** 56 bytes: the padding spills into a second block. *)
Example sha256_hex_two_blocks :
  sha256_hex "aaaaaaaaaaaaaaaaaaaaaaaaaaaaaaaaaaaaaaaaaaaaaaaaaaaaaaaa"
  = "b35439a4ac6f0948b6d6f9e3c6af0f5f590ce20f1bde7090ef7970686ec6738a".
Proof. vm_compute. reflexivity. Qed.

Lemma hex_digit_is_hex (d : Z) :
  (0 <= d < 16)%Z -> is_hex_digit (Sha256.hex_digit d).
Proof.
  intros Hd. unfold is_hex_digit.
  assert (Hc : (d = 0 ∨ d = 1 ∨ d = 2 ∨ d = 3 ∨ d = 4 ∨ d = 5 ∨ d = 6 ∨ d = 7
                ∨ d = 8 ∨ d = 9 ∨ d = 10 ∨ d = 11 ∨ d = 12 ∨ d = 13 ∨ d = 14
                ∨ d = 15)%Z) by lia.
  repeat (destruct Hc as [-> | Hc]; [vm_compute; tauto |]).
  subst d. vm_compute. tauto.
Qed.

Lemma nibble_range (x i : Z) : (0 <= Sha256.nibble x i < 16)%Z.
Proof. unfold Sha256.nibble. apply Z.mod_pos_bound. lia. Qed.

Lemma hex8_is_hex (x : Z) : Forall is_hex_digit (Sha256.hex8 x).
Proof.
  unfold Sha256.hex8. apply Forall_forall. intros c Hc.
  apply list_elem_of_In, in_map_iff in Hc as (i & <- & _).
  apply hex_digit_is_hex, nibble_range.
Qed.

Lemma string_of_list_ascii_length (l : list ascii) :
  String.length (string_of_list_ascii l) = length l.
Proof. induction l as [|c l IH]; simpl; [done | by rewrite IH]. Qed.

Lemma hexdigest_length (data : list Z) :
  String.length (Sha256.hexdigest data) = 64%nat.
Proof. unfold Sha256.hexdigest. by rewrite string_of_list_ascii_length. Qed.

Lemma hexdigest_is_hex (data : list Z) :
  Forall is_hex_digit (list_ascii_of_string (Sha256.hexdigest data)).
Proof.
  unfold Sha256.hexdigest, Sha256.hex_regs.
  rewrite list_ascii_of_string_of_list_ascii.
  repeat (apply Forall_app; split); apply hex8_is_hex.
Qed.

(** A password is stored as is only if it is itself a 64-character text. *)
Lemma sha256_hex_differs (s : string) :
  String.length s ≠ 64%nat -> sha256_hex s ≠ s.
Proof.
  intros Hlen Heq. apply Hlen. rewrite <- Heq at 1.
  apply hexdigest_length.
Qed.

(** ** The in-memory store *)

Lemma mem_documents_created (c : string) (data : doc) (st : MemDb.store) :
  MemDb.documents c (MemDb.mem_create_document c data (Some st)).2
  = MemDb.documents c (Some st)
      ++ [<["_id" := VObjectId (MemDb.generate_id st)]> data].
Proof.
  simpl. unfold MemDb.collection at 1. simpl. by rewrite lookup_insert_eq.
Qed.

Lemma mem_documents_created_ne (c c' : string) (data : doc) (st : MemDb.store) :
  c ≠ c' ->
  MemDb.documents c' (MemDb.mem_create_document c data (Some st)).2
  = MemDb.documents c' (Some st).
Proof.
  intros Hne. simpl. unfold MemDb.collection. simpl.
  by rewrite lookup_insert_ne.
Qed.

(** ** Plans *)

(** C6: on every invocation, whatever the database, the environment and the
    calls made before, [get_plans] returns exactly three plans, with
    identifiers free, pro, team in that order, of which only pro is
    highlighted; it leaves the world as it found it. *)
Theorem get_plans_fixed {DB : Type} `{Database DB} (w : world DB) :
  ∃ plans : list Plan,
    get_plans w = (Return plans, w)
    ∧ length plans = 3%nat
    ∧ plan_id <$> plans = ["free"; "pro"; "team"]
    ∧ highlighted <$> plans = [false; true; false]
    ∧ ∀ (DB' : Type) (D' : Database DB') (w' : world DB'),
        get_plans w' = (Return plans, w').
Proof. eexists. repeat split. Qed.

(** ** Signup *)

(** C1: for every signup payload, [signup] hands [create_document] one
    [User] record, in collection [user], whose [password_hash] is the
    SHA-256 hex digest of the password; the record has no field besides
    name, email and password_hash, and the digest, 64 characters of
    [0-9a-f], differs from the password unless that is itself 64 characters
    long.  When the write succeeds [signup] returns [ok: True] with the
    identifier [create_document] generated, and when it fails, a 500 with
    the exception's text.  In the in-memory store the record, with its
    generated key, is the last document of the collection afterwards. *)
Theorem signup_stores_password_digest {DB : Type} `{Database DB}
    (payload : SignupPayload) (w : world DB) :
  let digest := sha256_hex (signup_password payload) in
  let user : doc := {[ "name" := VStr (signup_name payload);
                       "email" := VStr (signup_email payload);
                       "password_hash" := VStr digest ]} in
  let '(r, db') := create_document "user" user (w_db w) in
  signup payload w
  = (match r with
     | Ok user_id => Return {[ "ok" := VBool true; "id" := VStr user_id ]}
     | Err msg => Raise (HTTPException 500 msg)
     end,
     World db' (w_environ w) (w_calls w ++ [CreateDocument "user" user]))
  ∧ dom user = {[ "name"; "email"; "password_hash" ]}
  ∧ String.length digest = 64%nat
  ∧ Forall is_hex_digit (list_ascii_of_string digest)
  ∧ (String.length (signup_password payload) ≠ 64%nat
     → digest ≠ signup_password payload)
  ∧ ∀ (st : MemDb.store) env calls,
      MemDb.documents "user" (w_db (signup payload (World (Some st) env calls)).2)
      = MemDb.documents "user" (Some st)
          ++ [<["_id" := VObjectId (MemDb.generate_id st)]> user].
Proof.
  intros digest user.
  destruct (create_document "user" user (w_db w)) as [r db'] eqn:Hcreate.
  split_and!.
  - unfold signup, try_except, bind, call_create_document.
    fold digest. change (User_model_dump _) with user.
    rewrite Hcreate. by destruct r.
  - subst user. rewrite !dom_insert_L, dom_singleton_L. set_solver.
  - apply hexdigest_length.
  - apply hexdigest_is_hex.
  - apply sha256_hex_differs.
  - intros st env calls.
    unfold signup, try_except, bind, call_create_document.
    fold digest. change (User_model_dump _) with user.
    destruct (create_document "user" user (w_db (World (Some st) env calls)))
      as [r' db''] eqn:Hmem.
    pose proof (mem_documents_created "user" user st) as Hdocs.
    simpl in Hmem. injection Hmem as <- <-.
    simpl. simpl in Hdocs. exact Hdocs.
Qed.

(** ** Login *)

Lemma login_unfold {DB : Type} `{Database DB} (payload : LoginPayload) (w : world DB) :
  let filter_dict : doc := {[ "email" := VStr (login_email payload) ]} in
  login payload w
  = (match (get_documents "user" filter_dict 1 (w_db w)).1 with
     | Ok [] => Raise (HTTPException 401 "Invalid credentials")
     | Ok (_ :: _) => Return {[ "ok" := VBool true; "message" := VStr "Logged in" ]}
     | Err msg => Raise (HTTPException 500 msg)
     end,
     World (get_documents "user" filter_dict 1 (w_db w)).2 (w_environ w)
           (w_calls w ++ [GetDocuments "user" filter_dict 1])).
Proof.
  intros filter_dict.
  unfold login, try_except, bind, call_get_documents. fold filter_dict.
  destruct (get_documents "user" filter_dict 1 (w_db w)) as [[[|d ds]|msg] db'];
    reflexivity.
Qed.

Lemma matches_singleton (k : string) (v : value) (d : doc) :
  MemDb.matches {[ k := v ]} d = bool_decide (d !! k = Some v).
Proof.
  unfold MemDb.matches. apply bool_decide_ext.
  by rewrite map_Forall_singleton.
Qed.

Lemma filter_nil_iff {A} (f : A -> bool) (l : list A) :
  List.filter f l = [] ↔ ∀ x, x ∈ l → f x = false.
Proof.
  induction l as [|a l IH]; simpl.
  - split; [intros _ x Hx; by apply elem_of_nil in Hx | done].
  - destruct (f a) eqn:Hfa.
    + split; [done | intros Hall]. specialize (Hall a ltac:(left)). congruence.
    + rewrite IH. split.
      * intros Hall x Hx. apply elem_of_cons in Hx as [-> | Hx]; auto.
      * intros Hall x Hx. apply Hall. by right.
Qed.

Lemma mem_get_documents_some (c : string) (filter_dict : doc) (limit : Z)
    (st : MemDb.store) :
  get_documents c filter_dict limit (Some st)
  = (Ok (take (Z.to_nat limit)
           (List.filter (MemDb.matches filter_dict) (MemDb.collection c st))),
     Some st).
Proof. reflexivity. Qed.

(** C2: the outcome of [login], and the world it leaves, do not depend on
    the password: two requests with the same email and any two passwords
    agree in every world.  When the lookup by email returns a record,
    [login] returns [ok: True]; in the in-memory store that is the case as
    soon as some user record carries that email. *)
Theorem login_ignores_password {DB : Type} `{Database DB}
    (email password1 password2 : string) (w : world DB) :
  let ok : doc := {[ "ok" := VBool true; "message" := VStr "Logged in" ]} in
  login {| login_email := email; login_password := password1 |} w
  = login {| login_email := email; login_password := password2 |} w
  ∧ (∀ d ds,
       (get_documents "user" {[ "email" := VStr email ]} 1 (w_db w)).1 = Ok (d :: ds) →
       (login {| login_email := email; login_password := password1 |} w).1
       = Return ok)
  ∧ ∀ (st : MemDb.store) env calls (d : doc),
      d ∈ MemDb.collection "user" st →
      d !! "email" = Some (VStr email) →
      (login {| login_email := email; login_password := password1 |}
             (World (Some st) env calls)).1
      = Return ok.
Proof.
  intros ok. split_and!.
  - by rewrite !login_unfold.
  - intros d ds Hget. rewrite login_unfold. simpl. by rewrite Hget.
  - intros st env calls d Hd Hemail. rewrite login_unfold. simpl.
    destruct (List.filter _ _) as [|d' ds'] eqn:Hfilter; [|done].
    exfalso. apply filter_nil_iff with (x := d) in Hfilter; [|done].
    rewrite matches_singleton in Hfilter.
    by apply bool_decide_eq_false in Hfilter.
Qed.

(** C3: when the lookup by email returns no record, [login] fails with
    status 401; when the persistence layer raises, it fails with status 500
    and the exception's text as detail; a 500 comes from a persistence
    failure only, so the 401 is never turned into a 500.  In the in-memory
    store no record is returned when no stored user carries the email. *)
Theorem login_failure_statuses {DB : Type} `{Database DB}
    (payload : LoginPayload) (w : world DB) :
  let found := (get_documents "user" {[ "email" := VStr (login_email payload) ]}
                  1 (w_db w)).1 in
  (found = Ok [] →
   (login payload w).1 = Raise (HTTPException 401 "Invalid credentials"))
  ∧ (∀ msg, found = Err msg →
            (login payload w).1 = Raise (HTTPException 500 msg))
  ∧ (∀ detail, (login payload w).1 = Raise (HTTPException 500 detail) →
               found = Err detail)
  ∧ ∀ (st : MemDb.store) env calls,
      (∀ d : doc, d ∈ MemDb.collection "user" st →
                  d !! "email" ≠ Some (VStr (login_email payload))) →
      (login payload (World (Some st) env calls)).1
      = Raise (HTTPException 401 "Invalid credentials").
Proof.
  intros found. split_and!.
  - intros Hfound. rewrite login_unfold. simpl. fold found. by rewrite Hfound.
  - intros msg Hfound. rewrite login_unfold. simpl. fold found. by rewrite Hfound.
  - intros detail. rewrite login_unfold. simpl. fold found.
    destruct found as [[|d ds]|msg]; intros Hlogin; try discriminate.
    by injection Hlogin as ->.
  - intros st env calls Hnone. rewrite login_unfold. simpl.
    replace (List.filter _ _) with (@nil doc); [done|].
    symmetry. apply filter_nil_iff. intros d Hd.
    rewrite matches_singleton. apply bool_decide_eq_false. by apply Hnone.
Qed.

(** ** Blog listing *)

Section RenameId.
Variable repr_list : list string -> string.

Lemma rename_id_native (p : doc) : rename_id repr_list p !! "_id" = None.
Proof.
  unfold rename_id. destruct (p !! "_id") as [v|] eqn:Hid; [|done].
  rewrite lookup_insert_ne by done. apply lookup_delete_eq.
Qed.

Lemma rename_id_id (p : doc) (v : value) :
  p !! "_id" = Some v ->
  rename_id repr_list p !! "id" = Some (VStr (str repr_list v)).
Proof. intros Hid. unfold rename_id. rewrite Hid. apply lookup_insert_eq. Qed.

Lemma rename_id_other (p : doc) (k : string) :
  k ≠ "_id" -> k ≠ "id" -> rename_id repr_list p !! k = p !! k.
Proof.
  intros H1 H2. unfold rename_id. destruct (p !! "_id") as [v|]; [|done].
  rewrite lookup_insert_ne by done. by rewrite lookup_delete_ne.
Qed.

Lemma list_blogs_unfold {DB : Type} `{Database DB} (limit : Z) (w : world DB) :
  let filter_dict : doc := {[ "published" := VBool true ]} in
  list_blogs repr_list limit w
  = (match (get_documents "blogpost" filter_dict limit (w_db w)).1 with
     | Ok posts => Return (rename_id repr_list <$> posts)
     | Err msg => Raise (HTTPException 500 msg)
     end,
     World (get_documents "blogpost" filter_dict limit (w_db w)).2 (w_environ w)
           (w_calls w ++ [GetDocuments "blogpost" filter_dict limit])).
Proof.
  intros filter_dict.
  unfold list_blogs, try_except, bind, call_get_documents. fold filter_dict.
  by destruct (get_documents "blogpost" filter_dict limit (w_db w)) as [[posts|msg] db'].
Qed.
End RenameId.

Lemma filter_matches_Forall (filter_dict : doc) (l : list doc) :
  Forall (fun d => map_Forall (fun k v => d !! k = Some v) filter_dict)
         (List.filter (MemDb.matches filter_dict) l).
Proof.
  apply Forall_forall. intros d Hd.
  apply list_elem_of_In, filter_In in Hd as [_ Hd].
  unfold MemDb.matches in Hd. by apply bool_decide_eq_true in Hd.
Qed.

(** C4: [list_blogs] makes one persistence call, [get_documents] on
    collection [blogpost] with filter [published = True] and the request's
    limit, which is 10 when the request carries none.  In the in-memory
    store it returns the first [limit] published posts, each with its key
    renamed: at most [limit] records, all of them published, and at most 2
    for [limit = 2] however many published posts the store holds.  Without
    a database handle it returns no record but a 500. *)
Theorem list_blogs_published_limit (repr_list : list string -> string) :
  let filter_dict : doc := {[ "published" := VBool true ]} in
  (∀ (DB : Type) (D : Database DB) (limit : Z) (w : world DB),
     w_calls (list_blogs repr_list limit w).2
     = w_calls w ++ [GetDocuments "blogpost" filter_dict limit]
     ∧ get_blog repr_list (Some limit) w = list_blogs repr_list limit w
     ∧ get_blog repr_list None w = list_blogs repr_list 10 w)
  ∧ (∀ (limit : Z) (st : MemDb.store) env calls,
       let published :=
         List.filter (MemDb.matches filter_dict) (MemDb.collection "blogpost" st) in
       let posts := rename_id repr_list <$> take (Z.to_nat limit) published in
       (list_blogs repr_list limit (World (Some st) env calls)).1 = Return posts
       ∧ (length posts ≤ Z.to_nat limit)%nat
       ∧ length posts = (Z.to_nat limit `min` length published)%nat
       ∧ Forall (fun d : doc => d !! "published" = Some (VBool true))
                (take (Z.to_nat limit) published))
  ∧ (∀ (st : MemDb.store) env calls,
       ∃ posts, (list_blogs repr_list 2 (World (Some st) env calls)).1 = Return posts
                ∧ (length posts ≤ 2)%nat)
  ∧ ∀ (limit : Z) env calls,
      (list_blogs repr_list limit (World None env calls)).1
      = Raise (HTTPException 500 MemDb.unavailable).
Proof.
  intros filter_dict. split_and!.
  - intros DB D limit w. split_and!; [by rewrite list_blogs_unfold | done..].
  - intros limit st env calls published posts. split_and!.
    + by rewrite list_blogs_unfold.
    + subst posts. rewrite length_fmap, length_take. lia.
    + subst posts. by rewrite length_fmap, length_take.
    + apply Forall_take.
      eapply Forall_impl; [apply filter_matches_Forall|].
      intros d Hd. simpl in Hd. by apply map_Forall_singleton in Hd.
  - intros st env calls. eexists. split.
    + by rewrite list_blogs_unfold.
    + rewrite length_fmap, length_take. change (Z.to_nat 2) with 2%nat. lia.
  - intros limit env calls. by rewrite list_blogs_unfold.
Qed.

(** ** Blog creation followed by listing *)

Lemma create_blog_unfold {DB : Type} `{Database DB}
    (payload : BlogCreatePayload) (w : world DB) :
  let post := BlogPost_model_dump (BlogPost_of_payload payload) in
  create_blog payload w
  = (match (create_document "blogpost" post (w_db w)).1 with
     | Ok post_id => Return {[ "ok" := VBool true; "id" := VStr post_id ]}
     | Err msg => Raise (HTTPException 500 msg)
     end,
     World (create_document "blogpost" post (w_db w)).2 (w_environ w)
           (w_calls w ++ [CreateDocument "blogpost" post])).
Proof.
  intros post.
  unfold create_blog, try_except, bind, call_create_document. fold post.
  by destruct (create_document "blogpost" post (w_db w)) as [[post_id|msg] db'].
Qed.

Lemma filter_snoc {A} (f : A -> bool) (l : list A) (x : A) :
  f x = true -> List.filter f (l ++ [x]) = List.filter f l ++ [x].
Proof. intros Hx. rewrite List.filter_app. simpl. by rewrite Hx. Qed.

Lemma BlogPost_model_dump_native (p : BlogPost) :
  BlogPost_model_dump p !! "_id" = None.
Proof. reflexivity. Qed.

Lemma BlogPost_model_dump_published (p : BlogPost) (v : value) :
  <["_id" := v]> (BlogPost_model_dump p) !! "published"
  = Some (VBool (post_published p)).
Proof. reflexivity. Qed.

(** C5: in the in-memory store, creating a post whose [published] is true
    (its default) succeeds with the generated identifier, and a listing
    whose limit exceeds the number of published posts held before then
    includes the new post: the dumped [BlogPost] with the identifier, as a
    string, under [id] and nothing under [_id].  Every listed record comes
    from a stored published record: it has no [_id], carries [str] of the
    stored [_id] under [id], and agrees with the stored record on every
    other field. *)
Theorem create_blog_then_list (repr_list : list string -> string)
    (payload : BlogCreatePayload) (limit : Z) (st : MemDb.store)
    (env : gmap string string) (calls : list call) :
  let filter_dict : doc := {[ "published" := VBool true ]} in
  let w := World (Some st) env calls in
  let post_id := MemDb.generate_id st in
  published payload = true ->
  (length (List.filter (MemDb.matches filter_dict) (MemDb.collection "blogpost" st))
   < Z.to_nat limit)%nat ->
  ∃ (w1 : world MemDb.handle) (posts : list doc),
    create_blog payload w = (Return {[ "ok" := VBool true; "id" := VStr post_id ]}, w1)
    ∧ (list_blogs repr_list limit w1).1 = Return posts
    ∧ <["id" := VStr post_id]> (BlogPost_model_dump (BlogPost_of_payload payload))
        ∈ posts
    ∧ Forall2
        (fun post stored : doc =>
           post !! "_id" = None
           ∧ (∀ v, stored !! "_id" = Some v →
                   post !! "id" = Some (VStr (str repr_list v)))
           ∧ ∀ k, k ≠ "_id" → k ≠ "id" → post !! k = stored !! k)
        posts
        (take (Z.to_nat limit)
           (List.filter (MemDb.matches filter_dict)
              (MemDb.documents "blogpost" (w_db w1)))).
Proof.
  intros filter_dict w post_id Hpublished Hlimit.
  set (post := BlogPost_model_dump (BlogPost_of_payload payload)).
  set (stored := <["_id" := VObjectId post_id]> post).
  eexists _, _. split; [by rewrite create_blog_unfold|].
  rewrite list_blogs_unfold. subst w filter_dict.
  cbn [w_db create_document MemDb.mem_database]. fold post.
  pose proof (mem_documents_created "blogpost" post st) as Hdocs.
  destruct (MemDb.mem_create_document "blogpost" post (Some st)) as [r [st'|]] eqn:Hc;
    [|discriminate].
  cbn [fst snd MemDb.documents] in *.
  change (MemDb.mem_get_documents "blogpost" ?f limit (Some st'))
    with (get_documents "blogpost" f limit (Some st')).
  rewrite mem_get_documents_some. cbn [fst]. rewrite Hdocs.
  change (<["_id" := VObjectId (MemDb.generate_id st)]> post) with stored.
  assert (Hstored : MemDb.matches {[ "published" := VBool true ]} stored = true).
  { rewrite matches_singleton. apply bool_decide_eq_true.
    unfold stored, post. rewrite BlogPost_model_dump_published.
    simpl. by rewrite Hpublished. }
  rewrite !filter_snoc by exact Hstored.
  rewrite !take_ge by (rewrite length_app; simpl; lia).
  split_and!.
  - done.
  - rewrite fmap_app. apply elem_of_app. right. apply list_elem_of_singleton.
    unfold rename_id, stored. rewrite lookup_insert_eq. simpl.
    by rewrite delete_insert_id by apply BlogPost_model_dump_native.
  - apply Forall2_fmap_l, Forall_Forall2_diag, Forall_forall. intros d _.
    split_and!.
    + apply rename_id_native.
    + apply rename_id_id.
    + intros k. apply rename_id_other.
Qed.

(** ** The diagnostic *)

Lemma truthy_spec (o : option string) :
  truthy o = true ↔ ∃ s, o = Some s ∧ s ≠ "".
Proof.
  destruct o as [[|c s]|]; simpl; split; try done.
  - intros (s & Hs & Hne). by injection Hs as <-.
  - intros _. by eexists.
  - by intros (s & ? & _).
Qed.

(** [test_database], one branch of its [try] blocks at a time. *)
Lemma test_database_unfold {DB : Type} `{Database DB} (w : world DB) :
  let init : doc :=
    {[ "backend" := VStr "✅ Running";
       "database" := VStr "❌ Not Available";
       "database_url" := VNone;
       "database_name" := VNone;
       "connection_status" := VStr "Not Connected";
       "collections" := VList [] ]} in
  let mark (name : string) : value :=
    VStr (if truthy (w_environ w !! name) then "✅ Set" else "❌ Not Set") in
  let finish (response : doc) : doc :=
    <["database_name" := mark "DATABASE_NAME"]>
      (<["database_url" := mark "DATABASE_URL"]> response) in
  test_database w
  = if db_is_none (w_db w) then
      (Return (finish (<["database" := VStr "⚠️  Available but not initialized"]> init)), w)
    else
      let r1 := <["database_url" := VStr "✅ Configured"]>
                  (<["database" := VStr "✅ Available"]> init) in
      match db_name (w_db w) with
      | Err msg =>
          (Return (finish (<["database" := VStr ("❌ Error: " +:+ str_prefix 50 msg)]> r1)), w)
      | Ok name =>
          let r2 := <["connection_status" := VStr "Connected"]>
                      (<["database_name" := VStr (default "✅ Connected" name)]> r1) in
          match list_collection_names (w_db w) with
          | (Ok collections, db') =>
              (Return (finish (<["database" := VStr "✅ Connected & Working"]>
                                 (<["collections" := VList (take 10 collections)]> r2))),
               logged ListCollectionNames w db')
          | (Err msg, db') =>
              (Return (finish (<["database" :=
                                   VStr ("⚠️  Connected but Error: " +:+ str_prefix 50 msg)]> r2)),
               logged ListCollectionNames w db')
          end
      end.
Proof.
  intros init mark finish.
  unfold test_database, with_response, bind, try_except, lift, assign,
    db_is_not_none, db_name_or, call_list_collection_names, getenv.
  fold init.
  destruct (db_is_none (w_db w)); cbn [negb]; [reflexivity|].
  destruct (db_name (w_db w)) as [name|msg]; [|reflexivity].
  destruct (list_collection_names (w_db w)) as [[collections|msg] db'];
    reflexivity.
Qed.

(** The two settings fields are written last, from the environment alone. *)
Lemma test_database_marks {DB : Type} `{Database DB} (w : world DB) :
  let mark (name : string) : value :=
    VStr (if truthy (w_environ w !! name) then "✅ Set" else "❌ Not Set") in
  ∃ (response : doc) (w' : world DB),
    test_database w = (Return response, w')
    ∧ response !! "database_url" = Some (mark "DATABASE_URL")
    ∧ response !! "database_name" = Some (mark "DATABASE_NAME").
Proof.
  intros mark.
  rewrite test_database_unfold. cbv zeta.
  destruct (db_is_none (w_db w));
    [|destruct (db_name (w_db w)) as [name|msg];
      [destruct (list_collection_names (w_db w)) as [[collections|msg] db']|]];
    (eexists _, _; split_and!; reflexivity).
Qed.

(** C9, amended: in every world [test_database] returns a dict with exactly
    the six keys backend, database, database_url, database_name,
    connection_status, collections; [collections] is a list of at most 10
    names; [database_url] and [database_name] are ["✅ Set"] when
    [DATABASE_URL], respectively [DATABASE_NAME], is set to a non-empty text,
    and ["❌ Not Set"] when it is unset or empty. *)
Theorem test_database_shape {DB : Type} `{Database DB} (w : world DB) :
  let mark (name : string) : value :=
    VStr (if truthy (w_environ w !! name) then "✅ Set" else "❌ Not Set") in
  ∃ (response : doc) (w' : world DB),
    test_database w = (Return response, w')
    ∧ dom response
      = {[ "backend"; "database"; "database_url"; "database_name";
           "connection_status"; "collections" ]}
    ∧ (∃ names, response !! "collections" = Some (VList names)
                ∧ (length names ≤ 10)%nat)
    ∧ response !! "database_url" = Some (mark "DATABASE_URL")
    ∧ response !! "database_name" = Some (mark "DATABASE_NAME")
    ∧ ∀ name, truthy (w_environ w !! name) = true
              ↔ ∃ s, w_environ w !! name = Some s ∧ s ≠ "".
Proof.
  intros mark.
  rewrite test_database_unfold. cbv zeta.
  destruct (db_is_none (w_db w));
    [|destruct (db_name (w_db w)) as [name|msg];
      [destruct (list_collection_names (w_db w)) as [[collections|msg] db']|]];
    (eexists _, _; split; [reflexivity|]; split_and!;
     [ rewrite !dom_insert_L, dom_singleton_L; set_solver
     | eexists; split; [reflexivity|];
       first [rewrite length_take; apply Nat.le_min_l | simpl; lia]
     | reflexivity
     | reflexivity
     | intros name'; apply truthy_spec ]).
Qed.

(** [DATABASE_URL] is present in the environment, with an empty value: the
    diagnostic answers ["❌ Not Set"]. *)
Lemma test_database_empty_setting :
  let w : world MemDb.handle := World None {[ "DATABASE_URL" := "" ]} [] in
  is_Some (w_environ w !! "DATABASE_URL")
  ∧ ∃ response : doc,
      (test_database w).1 = Return response
      ∧ response !! "database_url" = Some (VStr "❌ Not Set").
Proof.
  split; [by eexists|]. eexists. split; reflexivity.
Qed.

(** C10: [test_database] returns normally in every world, whether the
    handle is missing, its attribute access raises, or
    [list_collection_names] raises: the client receives a 200.  A failure
    shows only as text in the [database] field, and leaves [collections]
    empty.  [database_url] and [database_name] each hold one of the two
    markers, whatever the database: two worlds with the same environment
    give the same two fields. *)
Theorem test_database_total {DB : Type} `{Database DB} (w : world DB) :
  ∃ (response : doc) (w' : world DB),
    test_database w = (Return response, w')
    ∧ status (respond (Return response)) = 200%Z
    ∧ response !! "database"
      = Some (VStr
          (if db_is_none (w_db w) then "⚠️  Available but not initialized"
           else match db_name (w_db w), (list_collection_names (w_db w)).1 with
                | Err msg, _ => "❌ Error: " +:+ str_prefix 50 msg
                | Ok _, Err msg => "⚠️  Connected but Error: " +:+ str_prefix 50 msg
                | Ok _, Ok _ => "✅ Connected & Working"
                end))
    ∧ response !! "backend" = Some (VStr "✅ Running")
    ∧ ((db_is_none (w_db w) = true ∨ (∃ msg, db_name (w_db w) = Err msg)
        ∨ ∃ msg, (list_collection_names (w_db w)).1 = Err msg)
       → response !! "collections" = Some (VList []))
    ∧ (response !! "database_url" = Some (VStr "✅ Set")
       ∨ response !! "database_url" = Some (VStr "❌ Not Set"))
    ∧ (response !! "database_name" = Some (VStr "✅ Set")
       ∨ response !! "database_name" = Some (VStr "❌ Not Set"))
    ∧ ∀ (DB2 : Type) (D2 : Database DB2) (w2 : world DB2),
        w_environ w2 = w_environ w →
        ∃ response2 : doc,
          (test_database w2).1 = Return response2
          ∧ response2 !! "database_url" = response !! "database_url"
          ∧ response2 !! "database_name" = response !! "database_name".
Proof.
  destruct (test_database_marks w) as (response & w' & Hrun & Hurl & Hname).
  exists response, w'. split; [exact Hrun|]. split; [reflexivity|].
  split_and!.
  - revert Hrun. rewrite test_database_unfold. cbv zeta.
    destruct (db_is_none (w_db w));
      [|destruct (db_name (w_db w)) as [name|msg];
        [destruct (list_collection_names (w_db w)) as [[collections|msg] db']|]];
      intros [= <- _]; reflexivity.
  - revert Hrun. rewrite test_database_unfold. cbv zeta.
    destruct (db_is_none (w_db w));
      [|destruct (db_name (w_db w)) as [name|msg];
        [destruct (list_collection_names (w_db w)) as [[collections|msg] db']|]];
      intros [= <- _]; reflexivity.
  - revert Hrun. rewrite test_database_unfold. cbv zeta.
    destruct (db_is_none (w_db w));
      [|destruct (db_name (w_db w)) as [name|msg];
        [destruct (list_collection_names (w_db w)) as [[collections|msg] db']|]];
      intros [= <- _] Hfail; try reflexivity.
    exfalso. destruct Hfail as [?|[[? ?]|[? ?]]]; discriminate.
  - rewrite Hurl.
    destruct (truthy (w_environ w !! "DATABASE_URL")); [by left | by right].
  - rewrite Hname.
    destruct (truthy (w_environ w !! "DATABASE_NAME")); [by left | by right].
  - intros DB2 D2 w2 Henv.
    destruct (test_database_marks w2) as (response2 & w2' & Hrun2 & Hurl2 & Hname2).
    exists response2. rewrite Hrun2, Hurl, Hname, Hurl2, Hname2, Henv. done.
Qed.

(** ** Contact *)

Lemma submit_contact_unfold {DB : Type} `{Database DB}
    (payload : ContactPayload) (w : world DB) :
  let msg : doc := {[ "name" := VStr (contact_name payload);
                      "email" := VStr (contact_email payload);
                      "message" := VStr (contact_message payload) ]} in
  submit_contact payload w
  = (match (create_document "contactmessage" msg (w_db w)).1 with
     | Ok msg_id => Return {[ "ok" := VBool true; "id" := VStr msg_id ]}
     | Err e => Raise (HTTPException 500 e)
     end,
     World (create_document "contactmessage" msg (w_db w)).2 (w_environ w)
           (w_calls w ++ [CreateDocument "contactmessage" msg])).
Proof.
  intros msg.
  unfold submit_contact, try_except, bind, call_create_document.
  change (ContactMessage_model_dump _) with msg.
  by destruct (create_document "contactmessage" msg (w_db w)) as [[msg_id|e] db'].
Qed.

(** A submission with all three fields present, sent while the database is
    not available: the answer is a 500, not [ok: True] with an identifier. *)
Lemma submit_contact_unavailable :
  let body := JObject {[ "name" := JString "Ada";
                         "email" := JString "ada@example.org";
                         "message" := JString "hello" ]} in
  let w : world MemDb.handle := World None ∅ [] in
  (post_contact body w).1 = HttpError 500 "Database not available"
  ∧ ¬ ∃ msg_id : string,
        (post_contact body w).1
        = Success {[ "ok" := VBool true; "id" := VStr msg_id ]}.
Proof.
  split; [reflexivity|]. intros [msg_id Hok]. vm_compute in Hok. discriminate.
Qed.

(** C7, amended: for a validated contact payload, [submit_contact] makes one
    persistence call, [create_document] on collection [contactmessage] with
    the [ContactMessage] record of the three fields, and returns [ok: True]
    with the generated identifier when that write succeeds, a 500 with the
    exception's text when it fails.  A body holding the three fields as
    strings reaches the handler; a body without [message] is answered with
    the client error 422 before the handler runs: the world, and with it
    the list of persistence calls, is left as it was. *)
Theorem submit_contact_validated {DB : Type} `{Database DB} :
  (∀ (payload : ContactPayload) (w : world DB),
     let msg : doc := {[ "name" := VStr (contact_name payload);
                         "email" := VStr (contact_email payload);
                         "message" := VStr (contact_message payload) ]} in
     submit_contact payload w
     = (match (create_document "contactmessage" msg (w_db w)).1 with
        | Ok msg_id => Return {[ "ok" := VBool true; "id" := VStr msg_id ]}
        | Err e => Raise (HTTPException 500 e)
        end,
        World (create_document "contactmessage" msg (w_db w)).2 (w_environ w)
              (w_calls w ++ [CreateDocument "contactmessage" msg])))
  ∧ (∀ (o : gmap string json) (name email message : string) (w : world DB),
       o !! "name" = Some (JString name) →
       o !! "email" = Some (JString email) →
       o !! "message" = Some (JString message) →
       let payload := {| contact_name := name; contact_email := email;
                         contact_message := message |} in
       post_contact (JObject o) w
       = (respond (submit_contact payload w).1, (submit_contact payload w).2))
  ∧ ∀ (o : gmap string json) (w : world DB),
      o !! "message" = None →
      post_contact (JObject o) w = (Unprocessable, w)
      ∧ (400 ≤ status (post_contact (JObject o) w).1 < 500)%Z.
Proof.
  split_and!.
  - intros payload w. apply submit_contact_unfold.
  - intros o name email message w Hname Hemail Hmessage payload.
    unfold post_contact, ContactPayload_validate, required_str.
    rewrite Hname, Hemail, Hmessage. simpl. fold payload.
    by destruct (submit_contact payload w).
  - intros o w Hmessage.
    assert (Hreject : post_contact (JObject o) w = (Unprocessable, w)).
    { unfold post_contact, ContactPayload_validate, required_str.
      rewrite Hmessage.
      destruct (o !! "name") as [[]|]; simpl; try done;
        destruct (o !! "email") as [[]|]; simpl; done. }
    rewrite Hreject. simpl. split; [done | lia].
Qed.

(** ** Every request *)

Lemma bind_ret_world {S A B} (m : M S A) (f : A -> B) (s : S) :
  (bind m (fun a => ret (f a)) s).2 = (m s).2.
Proof. unfold bind, ret. by destruct (m s) as [[a|e] s']. Qed.

Lemma signup_unfold {DB : Type} `{Database DB} (payload : SignupPayload) (w : world DB) :
  let user := User_model_dump
                {| user_name := signup_name payload;
                   user_email := signup_email payload;
                   password_hash := sha256_hex (signup_password payload) |} in
  (signup payload w).2
  = World (create_document "user" user (w_db w)).2 (w_environ w)
          (w_calls w ++ [CreateDocument "user" user]).
Proof.
  intros user. unfold signup, try_except, bind, call_create_document. fold user.
  by destruct (create_document "user" user (w_db w)) as [[user_id|e] db'].
Qed.

(** The calls a request makes, route by route. *)
Lemma route_calls (repr_list : list string -> string) {DB : Type} `{Database DB}
    (req : request) (w : world DB) :
  w_calls (route repr_list req w).2
  = w_calls w ++
    match req with
    | GET_root | GET_plans => []
    | POST_signup payload =>
        [CreateDocument "user"
           (User_model_dump
              {| user_name := signup_name payload;
                 user_email := signup_email payload;
                 password_hash := sha256_hex (signup_password payload) |})]
    | POST_login payload =>
        [GetDocuments "user" {[ "email" := VStr (login_email payload) ]} 1]
    | POST_blog payload =>
        [CreateDocument "blogpost" (BlogPost_model_dump (BlogPost_of_payload payload))]
    | GET_blog limit =>
        [GetDocuments "blogpost" {[ "published" := VBool true ]} (default 10%Z limit)]
    | POST_contact payload =>
        [CreateDocument "contactmessage"
           (ContactMessage_model_dump
              {| msg_name := contact_name payload;
                 msg_email := contact_email payload;
                 msg_message := contact_message payload |})]
    | GET_test =>
        if db_is_none (w_db w) then []
        else match db_name (w_db w) with
             | Ok _ => [ListCollectionNames]
             | Err _ => []
             end
    end.
Proof.
  destruct req; unfold route; rewrite bind_ret_world.
  - simpl. by rewrite app_nil_r.
  - simpl. by rewrite app_nil_r.
  - by rewrite signup_unfold.
  - by rewrite login_unfold.
  - by rewrite create_blog_unfold.
  - unfold get_blog. by rewrite list_blogs_unfold.
  - by rewrite submit_contact_unfold.
  - rewrite test_database_unfold. cbv zeta.
    destruct (db_is_none (w_db w)); [simpl; by rewrite app_nil_r|].
    destruct (db_name (w_db w)) as [name|msg]; [|simpl; by rewrite app_nil_r].
    by destruct (list_collection_names (w_db w)) as [[collections|msg] db'].
Qed.

(** The in-memory database after a request, route by route. *)
Lemma route_mem_db (repr_list : list string -> string) (req : request)
    (db : MemDb.handle) (env : gmap string string) (calls : list call) :
  w_db (route repr_list req (World db env calls)).2
  = match req with
    | POST_signup payload =>
        (MemDb.mem_create_document "user"
           (User_model_dump
              {| user_name := signup_name payload;
                 user_email := signup_email payload;
                 password_hash := sha256_hex (signup_password payload) |}) db).2
    | POST_blog payload =>
        (MemDb.mem_create_document "blogpost"
           (BlogPost_model_dump (BlogPost_of_payload payload)) db).2
    | POST_contact payload =>
        (MemDb.mem_create_document "contactmessage"
           (ContactMessage_model_dump
              {| msg_name := contact_name payload;
                 msg_email := contact_email payload;
                 msg_message := contact_message payload |}) db).2
    | _ => db
    end.
Proof.
  destruct req; unfold route; rewrite bind_ret_world.
  - done.
  - done.
  - by rewrite signup_unfold.
  - rewrite login_unfold. by destruct db.
  - by rewrite create_blog_unfold.
  - unfold get_blog. rewrite list_blogs_unfold. by destruct db.
  - by rewrite submit_contact_unfold.
  - rewrite test_database_unfold. by destruct db.
Qed.

Lemma mem_create_document_grows (c c' : string) (data : doc) (db : MemDb.handle) :
  ∃ added : list doc,
    MemDb.documents c' (MemDb.mem_create_document c data db).2
    = MemDb.documents c' db ++ added
    ∧ (length added ≤ 1)%nat.
Proof.
  destruct db as [st|].
  - destruct (decide (c = c')) as [<-|Hne].
    + eexists. split; [apply mem_documents_created | simpl; lia].
    + exists []. split; [|simpl; lia].
      rewrite app_nil_r. by apply mem_documents_created_ne.
  - exists []. split; [done | simpl; lia].
Qed.

(** C8: a request makes at most one persistence call, and the number of
    [create_document] calls it makes is one for signup, blog creation and
    contact submission, none for every other route; the other calls are
    the reads [get_documents] and [list_collection_names].  In the
    in-memory store a request leaves every collection as it was, up to one
    document added at its end by a creating route: no stored document is
    changed or removed. *)
Theorem requests_create_once (repr_list : list string -> string) :
  (∀ (DB : Type) (D : Database DB) (req : request) (w : world DB),
     ∃ new : list call,
       w_calls (route repr_list req w).2 = w_calls w ++ new
       ∧ (length new ≤ 1)%nat
       ∧ creations new = (if creating req then 1 else 0)%nat)
  ∧ ∀ (req : request) (db : MemDb.handle) (env : gmap string string)
      (calls : list call) (c : string),
      ∃ added : list doc,
        MemDb.documents c (w_db (route repr_list req (World db env calls)).2)
        = MemDb.documents c db ++ added
        ∧ (length added ≤ if creating req then 1 else 0)%nat.
Proof.
  split.
  - intros DB D req w. eexists. split; [apply route_calls|].
    destruct req; simpl; try (split; [lia | reflexivity]).
    destruct (db_is_none (w_db w)); [simpl; split; [lia | reflexivity]|].
    destruct (db_name (w_db w)); simpl; split; (lia || reflexivity).
  - intros req db env calls c. rewrite route_mem_db.
    destruct req; simpl creating; cbv iota;
      try apply mem_create_document_grows;
      exists []; rewrite app_nil_r; (split; [done | simpl; lia]).
Qed.

(** ** Instances of the statements above at concrete requests *)

Lemma signup_stores_password_digest_witness :
  let payload := {| signup_name := "Ada"; signup_email := "ada@example.org";
                    signup_password := "hunter2" |} in
  let w : world MemDb.handle := World (Some (MemDb.Store "saas" ∅ 0)) ∅ [] in
  String.length (signup_password payload) ≠ 64%nat
  ∧ sha256_hex (signup_password payload) ≠ signup_password payload
  ∧ (signup payload w).1
    = Return {[ "ok" := VBool true; "id" := VStr "000000000000000000000000" ]}.
Proof.
  intros payload w.
  pose proof (signup_stores_password_digest payload w) as Hs.
  cbv zeta in Hs.
  cbn [create_document MemDb.mem_database MemDb.mem_create_document w_db w] in Hs.
  destruct Hs as (Hrun & _ & _ & _ & Hdiffers & _).
  assert (Hlen : String.length (signup_password payload) ≠ 64%nat)
    by (vm_compute; discriminate).
  split_and!; [exact Hlen | exact (Hdiffers Hlen) | by rewrite Hrun].
Defined.

Lemma login_ignores_password_witness :
  let user : doc :=
    {[ "_id" := VObjectId "000000000000000000000000";
       "name" := VStr "Ada";
       "email" := VStr "ada@example.org";
       "password_hash" :=
         VStr "f52fbd32b2b3b86ff88ef6c490628285f482af15ddcb29541f94bcf526a3f6c7" ]} in
  let st := MemDb.Store "saas" {[ "user" := [user] ]} 1 in
  let w : world MemDb.handle := World (Some st) ∅ [] in
  let ok : doc := {[ "ok" := VBool true; "message" := VStr "Logged in" ]} in
  (get_documents "user" {[ "email" := VStr "ada@example.org" ]} 1 (w_db w)).1
  = Ok [user]
  ∧ user ∈ MemDb.collection "user" st
  ∧ user !! "email" = Some (VStr "ada@example.org")
  ∧ (login {| login_email := "ada@example.org"; login_password := "hunter2" |} w).1
    = Return ok
  ∧ (login {| login_email := "ada@example.org"; login_password := "wrong" |} w).1
    = Return ok.
Proof.
  intros user st w ok.
  assert (Hget : (get_documents "user" {[ "email" := VStr "ada@example.org" ]} 1
                    (w_db w)).1 = Ok [user]) by (vm_compute; reflexivity).
  assert (Hin : user ∈ MemDb.collection "user" st) by (vm_compute; left).
  assert (Hemail : user !! "email" = Some (VStr "ada@example.org")) by reflexivity.
  destruct (login_ignores_password "ada@example.org" "hunter2" "wrong" w)
    as (Hsame & Hfound & _).
  destruct (login_ignores_password "ada@example.org" "wrong" "hunter2" w)
    as (_ & _ & Hstored).
  split_and!; [exact Hget | exact Hin | exact Hemail
              | exact (Hfound user [] Hget)
              | exact (Hstored st ∅ [] user Hin Hemail)].
Defined.

Lemma login_failure_statuses_witness :
  let payload := {| login_email := "nobody@example.org"; login_password := "x" |} in
  let empty : world MemDb.handle := World (Some (MemDb.Store "saas" ∅ 0)) ∅ [] in
  let missing : world MemDb.handle := World None ∅ [] in
  (login payload empty).1 = Raise (HTTPException 401 "Invalid credentials")
  ∧ (login payload missing).1 = Raise (HTTPException 500 MemDb.unavailable)
  ∧ (get_documents "user" {[ "email" := VStr "nobody@example.org" ]} 1
       (w_db missing)).1 = Err MemDb.unavailable.
Proof.
  intros payload empty missing.
  destruct (login_failure_statuses payload empty) as (Hnone & _ & _ & Hstored).
  destruct (login_failure_statuses payload missing) as (_ & Hraised & Hfrom & _).
  assert (H401 : (login payload empty).1
                 = Raise (HTTPException 401 "Invalid credentials"))
    by (apply Hnone; reflexivity).
  assert (H401' : (login payload empty).1
                  = Raise (HTTPException 401 "Invalid credentials")).
  { apply (Hstored (MemDb.Store "saas" ∅ 0) ∅ []).
    intros d Hd. vm_compute in Hd. by apply elem_of_nil in Hd. }
  assert (H500 : (login payload missing).1
                 = Raise (HTTPException 500 MemDb.unavailable))
    by (apply Hraised; reflexivity).
  split_and!; [exact H401 | exact H500 | exact (Hfrom _ H500)].
Defined.

Lemma create_blog_then_list_witness :
  let draft : doc := {[ "_id" := VObjectId "000000000000000000000000";
                        "title" := VStr "Draft"; "published" := VBool false ]} in
  let first : doc := {[ "_id" := VObjectId "000000000000000000000001";
                        "title" := VStr "First"; "published" := VBool true ]} in
  let st := MemDb.Store "saas" {[ "blogpost" := [draft; first] ]} 2 in
  let payload := BlogCreatePayload_defaults "Second" "second" "Hello" "ada" in
  let w : world MemDb.handle := World (Some st) ∅ [] in
  published payload = true
  ∧ (length (List.filter (MemDb.matches {[ "published" := VBool true ]})
               (MemDb.collection "blogpost" st)) < Z.to_nat 2)%nat
  ∧ ∃ (w1 : world MemDb.handle) (posts : list doc),
      create_blog payload w
      = (Return {[ "ok" := VBool true; "id" := VStr "000000000000000000000002" ]}, w1)
      ∧ (list_blogs MemDb.repr_list 2 w1).1 = Return posts
      ∧ <["id" := VStr "000000000000000000000002"]>
          (BlogPost_model_dump (BlogPost_of_payload payload)) ∈ posts.
Proof.
  intros draft first st payload w.
  assert (Hpublished : published payload = true) by reflexivity.
  assert (Hlimit : (length (List.filter (MemDb.matches {[ "published" := VBool true ]})
                              (MemDb.collection "blogpost" st)) < Z.to_nat 2)%nat)
    by (vm_compute; lia).
  destruct (create_blog_then_list MemDb.repr_list payload 2 st ∅ [] Hpublished Hlimit)
    as (w1 & posts & Hcreate & Hlist & Hin & _).
  split_and!; [exact Hpublished | exact Hlimit |].
  exists w1, posts. split_and!; [exact Hcreate | exact Hlist | exact Hin].
Defined.

Lemma submit_contact_validated_witness :
  let full : gmap string json :=
    {[ "name" := JString "Ada"; "email" := JString "ada@example.org";
       "message" := JString "hello" ]} in
  let partial : gmap string json :=
    {[ "name" := JString "Ada"; "email" := JString "ada@example.org" ]} in
  let w : world MemDb.handle := World (Some (MemDb.Store "saas" ∅ 0)) ∅ [] in
  full !! "message" = Some (JString "hello")
  ∧ partial !! "message" = None
  ∧ (post_contact (JObject full) w).1
    = Success {[ "ok" := VBool true; "id" := VStr "000000000000000000000000" ]}
  ∧ w_calls (post_contact (JObject full) w).2
    = [CreateDocument "contactmessage"
         {[ "name" := VStr "Ada"; "email" := VStr "ada@example.org";
            "message" := VStr "hello" ]}]
  ∧ post_contact (JObject partial) w = (Unprocessable, w).
Proof.
  intros full partial w.
  destruct (@submit_contact_validated MemDb.handle _) as (Hrun & Hvalid & Hreject).
  assert (Hmessage : full !! "message" = Some (JString "hello")) by reflexivity.
  assert (Hmissing : partial !! "message" = None) by reflexivity.
  pose proof (Hvalid full "Ada" "ada@example.org" "hello" w
                eq_refl eq_refl Hmessage) as Hpost.
  cbv zeta in Hpost. rewrite Hrun in Hpost.
  destruct (Hreject partial w Hmissing) as [Hunprocessable _].
  split_and!; [exact Hmessage | exact Hmissing | by rewrite Hpost
              | by rewrite Hpost | exact Hunprocessable].
Defined.

Lemma test_database_total_witness :
  let env : gmap string string := {[ "DATABASE_URL" := "mongodb://localhost" ]} in
  let w : world unit := World tt env [] in
  let w2 : world MemDb.handle := World None env [] in
  (@list_collection_names unit (DownDb.down "connection refused") (w_db w)).1
  = Err "connection refused"
  ∧ w_environ w2 = w_environ w
  ∧ ∃ response response2 : doc,
      (@test_database unit (DownDb.down "connection refused") w).1 = Return response
      ∧ response !! "database"
        = Some (VStr "⚠️  Connected but Error: connection refused")
      ∧ response !! "collections" = Some (VList [])
      ∧ (test_database w2).1 = Return response2
      ∧ response2 !! "database_url" = response !! "database_url".
Proof.
  intros env w w2.
  destruct (@test_database_total unit (DownDb.down "connection refused") w)
    as (response & w' & Hrun & _ & Hdatabase & _ & Hfailure & _ & _ & Hsame).
  assert (Hraises : (@list_collection_names unit (DownDb.down "connection refused")
                       (w_db w)).1 = Err "connection refused") by reflexivity.
  assert (Henv : w_environ w2 = w_environ w) by reflexivity.
  destruct (Hsame MemDb.handle _ w2 Henv) as (response2 & Hrun2 & Hurl & _).
  split_and!; [exact Hraises | exact Henv |].
  exists response, response2. split_and!.
  - by rewrite Hrun.
  - exact Hdatabase.
  - apply Hfailure. right. right. by eexists.
  - exact Hrun2.
  - exact Hurl.
Defined.


(** * Further properties of the handlers *)

(** ** Blog creation *)

(** X1: for every payload and every persistence layer, [create_blog] hands
    [create_document] one record, in collection [blogpost], with exactly the
    seven fields of the payload: an absent excerpt is stored as [None], and
    [published] is stored as given, so a draft is stored like any other
    post.  It returns [ok: True] with the generated identifier when the write
    succeeds and a 500 with the exception's text when it raises. *)
Theorem create_blog_record {DB : Type} `{Database DB}
    (payload : BlogCreatePayload) (w : world DB) :
  let post : doc :=
    {[ "title" := VStr (title payload);
       "slug" := VStr (slug payload);
       "content" := VStr (content payload);
       "excerpt" := match excerpt payload with
                    | Some s => VStr s
                    | None => VNone
                    end;
       "author" := VStr (author payload);
       "tags" := VList (tags payload);
       "published" := VBool (published payload) ]} in
  create_blog payload w
  = (match (create_document "blogpost" post (w_db w)).1 with
     | Ok post_id => Return {[ "ok" := VBool true; "id" := VStr post_id ]}
     | Err msg => Raise (HTTPException 500 msg)
     end,
     World (create_document "blogpost" post (w_db w)).2 (w_environ w)
           (w_calls w ++ [CreateDocument "blogpost" post]))
  ∧ dom post = {[ "title"; "slug"; "content"; "excerpt"; "author"; "tags";
                  "published" ]}
  ∧ post !! "published" = Some (VBool (published payload)).
Proof.
  intros post. split_and!.
  - apply create_blog_unfold.
  - subst post. rewrite !dom_insert_L, dom_singleton_L. set_solver.
  - reflexivity.
Qed.

(** ** What a request can answer *)

(** X2: whatever the persistence layer does, no handler lets an exception
    other than an [HTTPException] escape: the status of the answer is 200,
    401 or 500; 401 is given by the login route only; the root, plans and
    diagnostic routes always answer 200. *)
Theorem route_statuses (repr_list : list string -> string)
    {DB : Type} `{Database DB} (req : request) (w : world DB) :
  let answer := (route repr_list req w).1 in
  (status (respond answer) = 200 ∨ status (respond answer) = 401
   ∨ status (respond answer) = 500)%Z
  ∧ (status (respond answer) = 401%Z → ∃ payload, req = POST_login payload)
  ∧ match req with
    | GET_root | GET_plans | GET_test => ∃ body, answer = Return body
    | _ => True
    end
  ∧ ∀ msg, answer ≠ Raise (Exception msg).
Proof.
  intros answer. subst answer. destruct req; unfold route, bind, ret.
  - simpl. split_and!; eauto; done.
  - simpl. split_and!; eauto; done.
  - unfold signup, try_except, bind, call_create_document, ret.
    destruct (create_document _ _ _) as [[user_id|msg] db']; simpl;
      split_and!; eauto; done.
  - rewrite login_unfold. cbv zeta.
    destruct (get_documents _ _ _ _) as [[[|d ds]|msg] db']; simpl;
      split_and!; eauto; done.
  - rewrite create_blog_unfold. cbv zeta.
    destruct (create_document _ _ _) as [[post_id|msg] db']; simpl;
      split_and!; eauto; done.
  - unfold get_blog. rewrite list_blogs_unfold. cbv zeta.
    destruct (get_documents _ _ _ _) as [[posts|msg] db']; simpl;
      split_and!; eauto; done.
  - rewrite submit_contact_unfold. cbv zeta.
    destruct (create_document _ _ _) as [[msg_id|msg] db']; simpl;
      split_and!; eauto; done.
  - destruct (test_database_marks w) as (response & w' & -> & _).
    simpl. split_and!; eauto; done.
Qed.

(** ** The renaming loop of the blog listing *)

(** X3: the loop of [list_blogs] is idempotent: a record already renamed
    has no [_id] left and is not touched again, so running the loop over a
    list twice, or over a list that holds the same dict more than once,
    gives what running it once over each record gives. *)
Theorem rename_id_idempotent (repr_list : list string -> string)
    (p : doc) (posts : list doc) :
  rename_id repr_list (rename_id repr_list p) = rename_id repr_list p
  ∧ rename_id repr_list <$> (rename_id repr_list <$> posts)
    = rename_id repr_list <$> posts.
Proof.
  assert (Hone : ∀ q : doc,
             rename_id repr_list (rename_id repr_list q) = rename_id repr_list q).
  { intros q. unfold rename_id at 1. by rewrite rename_id_native. }
  split; [apply Hone|].
  rewrite <- list_fmap_compose. apply list_fmap_ext. intros i q _. apply Hone.
Qed.

(** X4: the fields of a listed record: when the stored record has an
    [_id], the listed one has its keys without [_id] and with [id], whether
    or not the stored record had an [id] of its own (which is then
    overwritten); a record without [_id] is listed as it is, keeping any
    [id] it has.  The loop never adds to the number of fields. *)
Theorem rename_id_fields (repr_list : list string -> string) (p : doc) :
  dom (rename_id repr_list p)
  = (if decide ("_id" ∈ dom p) then {[ "id" ]} ∪ (dom p ∖ {[ "_id" ]}) else dom p)
  ∧ (p !! "_id" = None → rename_id repr_list p = p)
  ∧ (∀ v old, p !! "_id" = Some v → p !! "id" = Some old →
              rename_id repr_list p !! "id" = Some (VStr (str repr_list v)))
  ∧ (size (rename_id repr_list p) ≤ size p)%nat.
Proof.
  assert (Hdom : dom (rename_id repr_list p)
                 = (if decide ("_id" ∈ dom p)
                    then {[ "id" ]} ∪ (dom p ∖ {[ "_id" ]}) else dom p)).
  { unfold rename_id. destruct (p !! "_id") as [v|] eqn:Hid.
    - rewrite decide_True by (apply elem_of_dom; eauto).
      by rewrite dom_insert_L, dom_delete_L.
    - rewrite decide_False; [done|]. by apply not_elem_of_dom. }
  split_and!.
  - exact Hdom.
  - intros Hid. unfold rename_id. by rewrite Hid.
  - intros v old Hid _. by apply rename_id_id.
  - unfold rename_id. destruct (p !! "_id") as [v|] eqn:Hid; [|done].
    assert (Hdel : size (delete "_id" p) = pred (size p))
      by (apply map_size_delete_Some; eauto).
    assert (Hpos : size p ≠ 0%nat).
    { intros Hzero. apply map_size_empty_inv in Hzero. by subst p. }
    destruct (delete "_id" p !! "id") as [old|] eqn:Hold.
    + rewrite map_size_insert_Some by eauto. lia.
    + rewrite map_size_insert_None by done. lia.
Qed.

(** X5: [list_blogs] does not itself bound or filter what it returns: for
    every persistence layer it returns one record for each record
    [get_documents] gave it, in the same order, also when those are more
    than [limit] or are not published. *)
Theorem list_blogs_returns_all (repr_list : list string -> string)
    {DB : Type} `{Database DB} (limit : Z) (w : world DB) (posts : list doc) :
  (get_documents "blogpost" {[ "published" := VBool true ]} limit (w_db w)).1
  = Ok posts ->
  ∃ listed : list doc,
    (list_blogs repr_list limit w).1 = Return listed
    ∧ length listed = length posts
    ∧ ∀ i : nat, listed !! i = rename_id repr_list <$> (posts !! i).
Proof.
  intros Hget. exists (rename_id repr_list <$> posts). split_and!.
  - rewrite list_blogs_unfold. simpl. by rewrite Hget.
  - apply length_fmap.
  - intros i. apply list_lookup_fmap.
Qed.

(** ** The diagnostic's connection status and collections *)

(** X6: [connection_status] is ["Connected"] as soon as the handle exists
    and its attribute access does not raise, also when
    [list_collection_names] then raises; it is ["Not Connected"] otherwise.
    [collections] holds the first 10 names in the order
    [list_collection_names] gave them, and is empty in every other case. *)
Theorem test_database_connection {DB : Type} `{Database DB} (w : world DB) :
  ∃ response : doc,
    (test_database w).1 = Return response
    ∧ response !! "connection_status"
      = Some (VStr (if db_is_none (w_db w) then "Not Connected"
                    else match db_name (w_db w) with
                         | Ok _ => "Connected"
                         | Err _ => "Not Connected"
                         end))
    ∧ response !! "collections"
      = Some (VList (if db_is_none (w_db w) then []
                     else match db_name (w_db w),
                                (list_collection_names (w_db w)).1 with
                          | Ok _, Ok names => take 10 names
                          | _, _ => []
                          end)).
Proof.
  rewrite test_database_unfold. cbv zeta.
  destruct (db_is_none (w_db w));
    [|destruct (db_name (w_db w)) as [name|msg];
      [destruct (list_collection_names (w_db w)) as [[collections|msg] db']|]];
    (eexists; split_and!; reflexivity).
Qed.

(** ** Truncation of error texts *)

Lemma str_prefix_len (n : nat) (s : string) :
  str_len (str_prefix n s) = (n `min` str_len s)%nat.
Proof.
  revert n. induction s as [|c s IH]; intros n; simpl.
  - lia.
  - destruct (is_continuation c) eqn:Hc; simpl.
    + by rewrite Hc, IH.
    + destruct n as [|n]; simpl; [done|]. by rewrite Hc, IH.
Qed.

(** X7: the slice [s[:n]] that the diagnostic applies to an exception's
    text with [n = 50]: it is a prefix of the text, has [min n (len s)]
    characters, so at most [n], and is the whole text when that has at most
    [n] characters; a multi-byte character is kept or cut whole. *)
Theorem str_prefix_truncates (n : nat) (s : string) :
  (∃ rest, s = str_prefix n s +:+ rest)
  ∧ str_len (str_prefix n s) = (n `min` str_len s)%nat
  ∧ (str_len (str_prefix n s) ≤ n)%nat
  ∧ ((str_len s ≤ n)%nat → str_prefix n s = s).
Proof.
  split_and!.
  - revert n. induction s as [|c s IH]; intros n; simpl.
    + by exists "".
    + destruct (is_continuation c).
      * destruct (IH n) as [rest Hrest]. exists rest.
        change (String c s = String c (str_prefix n s +:+ rest)). by f_equal.
      * destruct n as [|n]; [by eexists|].
        destruct (IH n) as [rest Hrest]. exists rest.
        change (String c s = String c (str_prefix n s +:+ rest)). by f_equal.
  - apply str_prefix_len.
  - rewrite str_prefix_len. lia.
  - revert n. induction s as [|c s IH]; intros n; simpl; [done|].
    destruct (is_continuation c); simpl.
    + intros Hle. by rewrite IH.
    + destruct n as [|n]; [lia|]. intros Hle. rewrite IH; [done | lia].
Qed.

(** ** Signup and login against the in-memory store *)

Lemma mem_filter_created (c : string) (filter_dict data : doc) (st : MemDb.store) :
  let stored := <["_id" := VObjectId (MemDb.generate_id st)]> data in
  List.filter (MemDb.matches filter_dict)
    (MemDb.documents c (MemDb.mem_create_document c data (Some st)).2)
  = List.filter (MemDb.matches filter_dict) (MemDb.collection c st)
      ++ (if MemDb.matches filter_dict stored then [stored] else []).
Proof.
  intros stored. rewrite mem_documents_created. fold stored.
  by rewrite List.filter_app.
Qed.

Lemma mem_get_documents_documents (c : string) (filter_dict : doc) (limit : Z)
    (db : MemDb.handle) :
  (get_documents c filter_dict limit db).1
  = match db with
    | Some _ => Ok (take (Z.to_nat limit)
                      (List.filter (MemDb.matches filter_dict) (MemDb.documents c db)))
    | None => Err MemDb.unavailable
    end.
Proof. by destruct db. Qed.

Lemma mem_create_document_some (c : string) (data : doc) (st : MemDb.store) :
  ∃ st' : MemDb.store,
    MemDb.mem_create_document c data (Some st) = (Ok (MemDb.generate_id st), Some st').
Proof. by eexists. Qed.

(** X8: in the in-memory store, once [signup] has succeeded for an email,
    [login] with that email returns [ok: True] whatever password is sent
    with it, the one signed up with or any other. *)
Theorem signup_then_login (payload : SignupPayload) (password : string)
    (st : MemDb.store) (env : gmap string string) (calls : list call) :
  let w : world MemDb.handle := World (Some st) env calls in
  (signup payload w).1
  = Return {[ "ok" := VBool true; "id" := VStr (MemDb.generate_id st) ]}
  ∧ (login {| login_email := signup_email payload; login_password := password |}
           (signup payload w).2).1
    = Return {[ "ok" := VBool true; "message" := VStr "Logged in" ]}.
Proof.
  intros w. split; [reflexivity|].
  rewrite login_unfold, signup_unfold. cbn [fst snd w_db login_email].
  set (user := User_model_dump _).
  rewrite mem_get_documents_documents.
  pose proof (mem_filter_created "user"
                {[ "email" := VStr (signup_email payload) ]} user st) as Hfilter.
  cbv zeta in Hfilter.
  subst w. cbn [w_db create_document MemDb.mem_database] in *.
  destruct (mem_create_document_some "user" user st) as [st' Hcreate].
  rewrite Hcreate in *. cbn [snd] in *. rewrite Hfilter.
  rewrite matches_singleton, bool_decide_eq_true_2 by reflexivity.
  change (Z.to_nat 1) with 1%nat.
  by destruct (List.filter _ (MemDb.collection "user" st)).
Qed.

(** X9: [signup] looks nothing up before it writes: in the in-memory store
    a second signup with an email already signed up succeeds like the
    first, and the collection then holds two more records, both with that
    email. *)
Theorem signup_twice_same_email (p1 p2 : SignupPayload)
    (st : MemDb.store) (env : gmap string string) (calls : list call) :
  signup_email p1 = signup_email p2 ->
  let w : world MemDb.handle := World (Some st) env calls in
  let w1 := (signup p1 w).2 in
  let w2 := (signup p2 w1).2 in
  ∃ (id1 id2 : string) (r1 r2 : doc),
    (signup p1 w).1 = Return {[ "ok" := VBool true; "id" := VStr id1 ]}
    ∧ (signup p2 w1).1 = Return {[ "ok" := VBool true; "id" := VStr id2 ]}
    ∧ MemDb.documents "user" (w_db w2) = MemDb.documents "user" (w_db w) ++ [r1; r2]
    ∧ r1 !! "email" = Some (VStr (signup_email p1))
    ∧ r2 !! "email" = Some (VStr (signup_email p1))
    ∧ w_calls w2 = calls ++ [CreateDocument "user" (delete "_id" r1);
                             CreateDocument "user" (delete "_id" r2)].
Proof.
  intros Hsame w w1 w2.
  set (u1 := User_model_dump
               {| user_name := signup_name p1; user_email := signup_email p1;
                  password_hash := sha256_hex (signup_password p1) |}).
  set (u2 := User_model_dump
               {| user_name := signup_name p2; user_email := signup_email p2;
                  password_hash := sha256_hex (signup_password p2) |}).
  assert (Hw1 : w1 = World (MemDb.mem_create_document "user" u1 (Some st)).2 env
                           (calls ++ [CreateDocument "user" u1]))
    by (subst w1; by rewrite signup_unfold).
  destruct (mem_create_document_some "user" u1 st) as [st1 Hc1].
  rewrite Hc1 in Hw1. cbn [snd] in Hw1.
  assert (Hw2 : w2 = World (MemDb.mem_create_document "user" u2 (Some st1)).2 env
                           ((calls ++ [CreateDocument "user" u1])
                              ++ [CreateDocument "user" u2]))
    by (subst w2; rewrite signup_unfold, Hw1; reflexivity).
  pose proof (mem_documents_created "user" u1 st) as Hd1.
  rewrite Hc1 in Hd1. cbn [snd] in Hd1.
  pose proof (mem_documents_created "user" u2 st1) as Hd2.
  exists (MemDb.generate_id st), (MemDb.generate_id st1),
    (<["_id" := VObjectId (MemDb.generate_id st)]> u1),
    (<["_id" := VObjectId (MemDb.generate_id st1)]> u2).
  split_and!.
  - reflexivity.
  - rewrite Hw1. reflexivity.
  - rewrite Hw2. cbn [w_db]. rewrite Hd2, Hd1. by rewrite <- app_assoc.
  - reflexivity.
  - rewrite Hsame. reflexivity.
  - rewrite Hw2. cbn [w_calls]. rewrite <- app_assoc.
    by rewrite !delete_insert_id by reflexivity.
Qed.

(** ** Drafts *)

(** X10: in the in-memory store, creating a post with [published] false
    leaves every listing as it was: the draft is stored, but no
    [list_blogs], whatever its limit, returns it; without a database handle
    both listings fail alike. *)
Theorem draft_not_listed (repr_list : list string -> string)
    (payload : BlogCreatePayload) (limit : Z) (db : MemDb.handle)
    (env : gmap string string) (calls : list call) :
  published payload = false ->
  let w : world MemDb.handle := World db env calls in
  (list_blogs repr_list limit (create_blog payload w).2).1
  = (list_blogs repr_list limit w).1
  ∧ ∀ st, db = Some st →
          length (MemDb.documents "blogpost" (w_db (create_blog payload w).2))
          = S (length (MemDb.documents "blogpost" db)).
Proof.
  intros Hdraft w.
  set (post := BlogPost_model_dump (BlogPost_of_payload payload)).
  assert (Hdb : w_db (create_blog payload w).2
                = (MemDb.mem_create_document "blogpost" post db).2)
    by (by rewrite create_blog_unfold).
  split.
  - rewrite !list_blogs_unfold. cbn [fst]. rewrite Hdb.
    rewrite !mem_get_documents_documents. subst w. cbn [w_db].
    destruct db as [st|]; [|reflexivity].
    pose proof (mem_filter_created "blogpost" {[ "published" := VBool true ]}
                  post st) as Hfilter.
    cbv zeta in Hfilter.
    destruct (mem_create_document_some "blogpost" post st) as [st' Hcreate].
    rewrite Hcreate in *. cbn [snd] in *. rewrite Hfilter.
    rewrite matches_singleton, bool_decide_eq_false_2.
    + by rewrite app_nil_r.
    + unfold post. rewrite BlogPost_model_dump_published. simpl.
      rewrite Hdraft. discriminate.
  - intros st ->. rewrite Hdb, mem_documents_created, length_app. simpl. lia.
Qed.

(** ** Validation of the request bodies *)

Lemma required_str_Some (o : gmap string json) (key s : string) :
  required_str o key = Some s ↔ o !! key = Some (JString s).
Proof.
  unfold required_str. destruct (o !! key) as [[]|]; split; congruence.
Qed.

(** X11: [LoginPayload] declares [password] as a required string although
    [login] never reads it: a login body whose [password] is missing or is
    not a string is answered with 422 before [login] runs, whatever the
    email and whatever the database holds; no persistence call is made. *)
Theorem post_login_requires_password {DB : Type} `{Database DB}
    (o : gmap string json) (w : world DB) :
  (∀ s, o !! "password" ≠ Some (JString s)) ->
  post_login (JObject o) w = (Unprocessable, w).
Proof.
  intros Hpassword. unfold post_login, LoginPayload_validate.
  destruct (required_str o "password") as [s|] eqn:Hs.
  - apply required_str_Some in Hs. by destruct (Hpassword s).
  - by destruct (required_str o "email").
Qed.

(** X12: a body is accepted as a [ContactPayload], [SignupPayload] or
    [LoginPayload] exactly when it is a JSON object holding each declared
    field as a string; the payload carries those strings, and fields that
    are not declared are ignored. *)
Theorem payload_validation (body : json) :
  (∀ p, ContactPayload_validate body = Some p
        ↔ ∃ o, body = JObject o
               ∧ o !! "name" = Some (JString (contact_name p))
               ∧ o !! "email" = Some (JString (contact_email p))
               ∧ o !! "message" = Some (JString (contact_message p)))
  ∧ (∀ p, SignupPayload_validate body = Some p
          ↔ ∃ o, body = JObject o
                 ∧ o !! "name" = Some (JString (signup_name p))
                 ∧ o !! "email" = Some (JString (signup_email p))
                 ∧ o !! "password" = Some (JString (signup_password p)))
  ∧ ∀ p, LoginPayload_validate body = Some p
         ↔ ∃ o, body = JObject o
                ∧ o !! "email" = Some (JString (login_email p))
                ∧ o !! "password" = Some (JString (login_password p)).
Proof.
  split_and!; intros [? ? ?] || intros [? ?]; (split;
    [ destruct body as [| | | | |o]; try discriminate; simpl; intros Hv;
      exists o; split; [done|];
      repeat match type of Hv with
             | context [required_str o ?k] =>
                 let E := fresh "E" in
                 destruct (required_str o k) eqn:E; simpl in Hv;
                 [apply required_str_Some in E | discriminate]
             end;
      injection Hv as <-; subst; simpl; done
    | intros (o & -> & Hfields); simpl in Hfields; simpl;
      repeat match type of Hfields with
             | _ ∧ _ => let Hf := fresh "Hf" in destruct Hfields as [Hf Hfields];
                        apply required_str_Some in Hf; rewrite Hf; simpl
             end;
      apply required_str_Some in Hfields; rewrite Hfields; done ]).
Qed.

(** ** Instances of the further properties *)

Lemma route_statuses_witness :
  let w : world MemDb.handle := World (Some (MemDb.Store "saas" ∅ 0)) ∅ [] in
  let req := POST_login {| login_email := "nobody@example.org";
                           login_password := "x" |} in
  status (respond (route MemDb.repr_list req w).1) = 401%Z
  ∧ ∃ payload, req = POST_login payload.
Proof.
  intros w req.
  destruct (route_statuses MemDb.repr_list req w) as (_ & Hlogin & _).
  assert (Hstatus : status (respond (route MemDb.repr_list req w).1) = 401%Z)
    by reflexivity.
  split; [exact Hstatus | exact (Hlogin Hstatus)].
Defined.

Lemma rename_id_fields_witness :
  let p : doc := {[ "_id" := VObjectId "000000000000000000000001";
                    "id" := VStr "mine"; "title" := VStr "First" ]} in
  let q : doc := {[ "id" := VStr "mine"; "title" := VStr "First" ]} in
  p !! "_id" = Some (VObjectId "000000000000000000000001")
  ∧ p !! "id" = Some (VStr "mine")
  ∧ rename_id MemDb.repr_list p !! "id" = Some (VStr "000000000000000000000001")
  ∧ q !! "_id" = None
  ∧ rename_id MemDb.repr_list q = q.
Proof.
  intros p q.
  destruct (rename_id_fields MemDb.repr_list p) as (_ & _ & Hover & _).
  destruct (rename_id_fields MemDb.repr_list q) as (_ & Hkeep & _).
  assert (Hnative : p !! "_id" = Some (VObjectId "000000000000000000000001"))
    by reflexivity.
  assert (Hown : p !! "id" = Some (VStr "mine")) by reflexivity.
  assert (Hnone : q !! "_id" = None) by reflexivity.
  split_and!; [exact Hnative | exact Hown | exact (Hover _ _ Hnative Hown)
              | exact Hnone | exact (Hkeep Hnone)].
Defined.

Lemma list_blogs_returns_all_witness :
  let draft : doc := {[ "title" := VStr "Draft"; "published" := VBool false ]} in
  let posts := [draft; draft; draft] in
  let w : world (list doc) := World posts ∅ [] in
  (@get_documents _ LooseDb.loose "blogpost" {[ "published" := VBool true ]} 1
     (w_db w)).1 = Ok posts
  ∧ ∃ listed : list doc,
      (@list_blogs _ LooseDb.loose MemDb.repr_list 1 w).1 = Return listed
      ∧ length listed = 3%nat.
Proof.
  intros draft posts w.
  assert (Hget : (@get_documents _ LooseDb.loose "blogpost"
                    {[ "published" := VBool true ]} 1 (w_db w)).1 = Ok posts)
    by reflexivity.
  destruct (@list_blogs_returns_all MemDb.repr_list _ LooseDb.loose 1 w posts Hget)
    as (listed & Hlisted & Hlength & _).
  split; [exact Hget|]. exists listed. split; [exact Hlisted | exact Hlength].
Defined.

Lemma str_prefix_truncates_witness :
  (str_len "connection refused" ≤ 50)%nat
  ∧ str_prefix 50 "connection refused" = "connection refused".
Proof.
  destruct (str_prefix_truncates 50 "connection refused") as (_ & _ & _ & Hwhole).
  assert (Hshort : (str_len "connection refused" ≤ 50)%nat) by (vm_compute; lia).
  split; [exact Hshort | exact (Hwhole Hshort)].
Defined.

Lemma signup_twice_same_email_witness :
  let p1 := {| signup_name := "Ada"; signup_email := "ada@example.org";
               signup_password := "hunter2" |} in
  let p2 := {| signup_name := "Eve"; signup_email := "ada@example.org";
               signup_password := "other" |} in
  let w : world MemDb.handle := World (Some (MemDb.Store "saas" ∅ 0)) ∅ [] in
  signup_email p1 = signup_email p2
  ∧ ∃ r1 r2 : doc,
      MemDb.documents "user" (w_db (signup p2 (signup p1 w).2).2) = [r1; r2]
      ∧ r1 !! "email" = Some (VStr "ada@example.org")
      ∧ r2 !! "email" = Some (VStr "ada@example.org").
Proof.
  intros p1 p2 w.
  assert (Hsame : signup_email p1 = signup_email p2) by reflexivity.
  destruct (signup_twice_same_email p1 p2 (MemDb.Store "saas" ∅ 0) ∅ [] Hsame)
    as (id1 & id2 & r1 & r2 & _ & _ & Hdocs & Hr1 & Hr2 & _).
  split; [exact Hsame|]. exists r1, r2.
  split_and!; [exact Hdocs | exact Hr1 | exact Hr2].
Defined.

Lemma draft_not_listed_witness :
  let first : doc := {[ "_id" := VObjectId "000000000000000000000000";
                        "title" := VStr "First"; "published" := VBool true ]} in
  let st := MemDb.Store "saas" {[ "blogpost" := [first] ]} 1 in
  let payload := {| title := "Draft"; slug := "draft"; content := "...";
                    excerpt := None; author := "ada"; tags := [];
                    published := false |} in
  let w : world MemDb.handle := World (Some st) ∅ [] in
  published payload = false
  ∧ (list_blogs MemDb.repr_list 10 (create_blog payload w).2).1
    = (list_blogs MemDb.repr_list 10 w).1
  ∧ length (MemDb.documents "blogpost" (w_db (create_blog payload w).2)) = 2%nat.
Proof.
  intros first st payload w.
  assert (Hdraft : published payload = false) by reflexivity.
  destruct (draft_not_listed MemDb.repr_list payload 10 (Some st) ∅ [] Hdraft)
    as [Hsame Hstored].
  split_and!; [exact Hdraft | exact Hsame | exact (Hstored st eq_refl)].
Defined.

Lemma post_login_requires_password_witness :
  let user : doc := {[ "_id" := VObjectId "000000000000000000000000";
                       "email" := VStr "ada@example.org" ]} in
  let w : world MemDb.handle :=
    World (Some (MemDb.Store "saas" {[ "user" := [user] ]} 1)) ∅ [] in
  let o : gmap string json := {[ "email" := JString "ada@example.org" ]} in
  (∀ s, o !! "password" ≠ Some (JString s))
  ∧ post_login (JObject o) w = (Unprocessable, w).
Proof.
  intros user w o.
  assert (Hmissing : ∀ s, o !! "password" ≠ Some (JString s))
    by (intros s; vm_compute; discriminate).
  split; [exact Hmissing | exact (post_login_requires_password o w Hmissing)].
Defined.
